(** * market_price_edpgw_authentication.py: session and token lifecycle

    A shallow embedding of the example client
    [Applications/Examples/RDP/python/market_price_edpgw_authentication.py]:
    the WebSocket side ([process_message], [process_login_response],
    [send_market_price_request], [send_login_request], [on_close],
    [on_error], [on_open]), the token acquisition [get_sts_token] and the
    renewal loop of [__main__].  [json.dumps] and [json.loads], which the
    program calls on its frames, are modelled for JSON values whose numbers
    are integers.

    Conventions.
    - Python values that the program handles are JSON values ([json]);
      [None] is [JNull].  A Python [str] is a [string] whose characters are
      code points below 256.
    - The module-level variables that change at run time are the fields of
      [state]; the ones fixed by the command line are the fields of [config].
    - The outside world is explicit: the replies that [requests.post] will
      receive are a finite script consumed one reply per request, and what
      the program does to the world (HTTP requests, WebSocket frames,
      sleeps) is appended to a chronological trace.  [print] is not modelled.
    - A Python exception is the outcome [Raise]; [sys.exit n] is
      [Raise (SystemExit n)]. *)

From Stdlib Require Import ZArith List String Ascii Bool Lia.
From Stdlib Require Import DecimalString DecimalZ DecimalPos.
From Stdlib Require Import PrimFloat SpecFloat FloatOps.
Import ListNotations.

#[local] Open Scope string_scope.
#[local] Open Scope Z_scope.
#[local] Set Warnings "-inexact-float,-register-all".

(** ** Python values *)

Inductive json : Type :=
| JNull
| JBool (b : bool)
| JNum (n : Z)
| JStr (s : string)
| JArr (items : list json)
| JObj (members : list (string * json)).

Inductive exn : Type :=
| KeyError (key : string)
| TypeError
| ValueError
| OverflowError
| JSONDecodeError
| SystemExit (code : Z).

(** [Unmodelled] marks a run that leaves the model: the script of HTTP
    replies is exhausted, or [float] is applied to a string that is not an
    integer literal. *)
Inductive outcome (A : Type) : Type :=
| Ret (a : A)
| Raise (e : exn)
| Unmodelled.

Arguments Ret {A} a.
Arguments Raise {A} e.
Arguments Unmodelled {A}.

(** [bool(v)] *)
Definition py_truthy (v : json) : bool :=
  match v with
  | JNull => false
  | JBool b => b
  | JNum n => negb (n =? 0)
  | JStr s => negb (String.eqb s "")
  | JArr items => match items with [] => false | _ => true end
  | JObj members => match members with [] => false | _ => true end
  end.

(** [v == s] for a string literal [s] *)
Definition py_eq_str (v : json) (s : string) : bool :=
  match v with
  | JStr t => String.eqb t s
  | _ => false
  end.

Fixpoint dict_get (key : string) (members : list (string * json)) : option json :=
  match members with
  | [] => None
  | (k, v) :: rest => if String.eqb k key then Some v else dict_get key rest
  end.

(** [d[key] = v]: an existing key keeps its place, a new one goes last. *)
Fixpoint dict_set (key : string) (v : json) (members : list (string * json))
  : list (string * json) :=
  match members with
  | [] => [(key, v)]
  | (k, w) :: rest =>
      if String.eqb k key then (k, v) :: rest else (k, w) :: dict_set key v rest
  end.

(** [container[key]] for a string key *)
Definition py_getitem (container : json) (key : string) : outcome json :=
  match container with
  | JObj members =>
      match dict_get key members with
      | Some v => Ret v
      | None => Raise (KeyError key)
      end
  | _ => Raise TypeError
  end.

(** [key in container] for a string key *)
Definition py_in (key : string) (container : json) : outcome bool :=
  match container with
  | JObj members =>
      Ret (match dict_get key members with Some _ => true | None => false end)
  | JArr items => Ret (existsb (fun v => py_eq_str v key) items)
  | JStr s => Ret (match index 0 key s with Some _ => true | None => false end)
  | _ => Raise TypeError
  end.

(** ** json.dumps with the default separators and [ensure_ascii] *)

Definition hex_digit (n : N) : ascii :=
  match n with
  | 0%N => "0" | 1%N => "1" | 2%N => "2" | 3%N => "3" | 4%N => "4"
  | 5%N => "5" | 6%N => "6" | 7%N => "7" | 8%N => "8" | 9%N => "9"
  | 10%N => "a" | 11%N => "b" | 12%N => "c" | 13%N => "d" | 14%N => "e"
  | _ => "f"
  end%char.

Definition backslash : ascii := ascii_of_N 92.

Definition is_plain_char (c : ascii) : bool :=
  let n := N_of_ascii c in
  (32 <=? n)%N && (n <=? 126)%N && negb (n =? 34)%N && negb (n =? 92)%N.

Definition escape_char (c : ascii) : string :=
  let n := N_of_ascii c in
  if (n =? 34)%N then String backslash (String c "")
  else if (n =? 92)%N then "\\"
  else if (n =? 10)%N then "\n"
  else if (n =? 13)%N then "\r"
  else if (n =? 9)%N then "\t"
  else if (n =? 8)%N then "\b"
  else if (n =? 12)%N then "\f"
  else if is_plain_char c then String c ""
  else "\u00" ++ String (hex_digit (n / 16)) (String (hex_digit (n mod 16)) "").

Fixpoint escape_string (s : string) : string :=
  match s with
  | EmptyString => ""
  | String c rest => escape_char c ++ escape_string rest
  end.

Definition quote : string := String (ascii_of_N 34) "".

Definition encode_string (s : string) : string :=
  quote ++ escape_string s ++ quote.

Definition string_of_Z (n : Z) : string :=
  NilZero.string_of_int (Z.to_int n).

Fixpoint join (sep : string) (parts : list string) : string :=
  match parts with
  | [] => ""
  | [p] => p
  | p :: rest => p ++ sep ++ join sep rest
  end.

Fixpoint dumps (v : json) : string :=
  match v with
  | JNull => "null"
  | JBool true => "true"
  | JBool false => "false"
  | JNum n => string_of_Z n
  | JStr s => encode_string s
  | JArr items => "[" ++ join ", " (map dumps items) ++ "]"
  | JObj members =>
      "{" ++ join ", "
               (map (fun kv => encode_string (fst kv) ++ ": " ++ dumps (snd kv))
                    members)
          ++ "}"
  end.

(** ** json.loads, for documents whose numbers are integers

    [None] stands for a text that [json.loads] rejects or that is outside
    the model: a number with a fraction or an exponent, [NaN], [Infinity],
    [-0], an escape of a code point above 255. *)

Definition is_space (c : ascii) : bool :=
  let n := N_of_ascii c in
  ((n =? 32) || (n =? 9) || (n =? 10) || (n =? 13))%N.

Fixpoint skip_ws (s : string) : string :=
  match s with
  | EmptyString => EmptyString
  | String c rest => if is_space c then skip_ws rest else s
  end.

Definition hex_value (c : ascii) : option N :=
  let n := N_of_ascii c in
  if ((48 <=? n) && (n <=? 57))%N then Some (n - 48)%N
  else if ((97 <=? n) && (n <=? 102))%N then Some (n - 87)%N
  else if ((65 <=? n) && (n <=? 70))%N then Some (n - 55)%N
  else None.

(** The character that follows the backslash of a two-character escape. *)
Definition unescape (e : ascii) : option ascii :=
  let n := N_of_ascii e in
  if ((n =? 34) || (n =? 92) || (n =? 47))%N then Some e
  else if (n =? 98)%N then Some (ascii_of_N 8)
  else if (n =? 102)%N then Some (ascii_of_N 12)
  else if (n =? 110)%N then Some (ascii_of_N 10)
  else if (n =? 114)%N then Some (ascii_of_N 13)
  else if (n =? 116)%N then Some (ascii_of_N 9)
  else None.

Definition cons_char (c : ascii) (r : option (string * string))
  : option (string * string) :=
  match r with
  | Some (s, rest) => Some (String c s, rest)
  | None => None
  end.

(** The characters of a string literal, from after its opening quote to its
    closing quote. *)
Fixpoint parse_chars (s : string) : option (string * string) :=
  match s with
  | EmptyString => None
  | String c rest =>
      let n := N_of_ascii c in
      if (n =? 34)%N then Some (EmptyString, rest)
      else if (n =? 92)%N then
        match rest with
        | EmptyString => None
        | String e rest1 =>
            match unescape e with
            | Some c' => cons_char c' (parse_chars rest1)
            | None =>
                if (N_of_ascii e =? 117)%N then
                  match rest1 with
                  | String h1 (String h2 (String h3 (String h4 rest2))) =>
                      match hex_value h1, hex_value h2,
                            hex_value h3, hex_value h4 with
                      | Some 0%N, Some 0%N, Some a, Some b =>
                          cons_char (ascii_of_N (16 * a + b))
                                    (parse_chars rest2)
                      | _, _, _, _ => None
                      end
                  | _ => None
                  end
                else None
            end
        end
      else if (n <? 32)%N then None
      else cons_char c (parse_chars rest)
  end.

Definition is_number_char (c : ascii) : bool :=
  let n := N_of_ascii c in
  ((48 <=? n) && (n <=? 57) || (n =? 45))%N.

Fixpoint span_number (s : string) : string * string :=
  match s with
  | EmptyString => (EmptyString, EmptyString)
  | String c rest =>
      if is_number_char c then
        let (token, rest') := span_number rest in (String c token, rest')
      else (EmptyString, s)
  end.

(** [. e E] after the digits announce a float. *)
Definition starts_fraction (s : string) : bool :=
  match s with
  | EmptyString => false
  | String c _ =>
      let n := N_of_ascii c in ((n =? 46) || (n =? 101) || (n =? 69))%N
  end.

(** An integer in the form in which [json.dumps] writes it. *)
Definition parse_number (s : string) : option (Z * string) :=
  let (token, rest) := span_number s in
  if starts_fraction rest then None
  else
    match option_map Z.of_int (NilZero.int_of_string token) with
    | Some n => if String.eqb (string_of_Z n) token then Some (n, rest) else None
    | None => None
    end.

Fixpoint strip_prefix (word s : string) : option string :=
  match word, s with
  | EmptyString, _ => Some s
  | String a word', String b s' =>
      if Ascii.eqb a b then strip_prefix word' s' else None
  | String _ _, EmptyString => None
  end.

(** [dict(pairs)]: a later pair of the same key replaces the value. *)
Definition dict_of_pairs (pairs : list (string * json)) : list (string * json) :=
  fold_left (fun d kv => dict_set (fst kv) (snd kv) d) pairs [].

Fixpoint parse_value (fuel : nat) (s : string) {struct fuel}
  : option (json * string) :=
  match fuel with
  | O => None
  | S fuel' =>
      match skip_ws s with
      | EmptyString => None
      | String c rest =>
          let n := N_of_ascii c in
          if (n =? 34)%N then
            match parse_chars rest with
            | Some (text, rest') => Some (JStr text, rest')
            | None => None
            end
          else if (n =? 91)%N then
            match strip_prefix "]" (skip_ws rest) with
            | Some rest' => Some (JArr [], rest')
            | None =>
                match parse_items fuel' rest with
                | Some (items, rest') => Some (JArr items, rest')
                | None => None
                end
            end
          else if (n =? 123)%N then
            match strip_prefix "}" (skip_ws rest) with
            | Some rest' => Some (JObj [], rest')
            | None =>
                match parse_members fuel' rest with
                | Some (pairs, rest') => Some (JObj (dict_of_pairs pairs), rest')
                | None => None
                end
            end
          else if (n =? 116)%N then
            option_map (pair (JBool true)) (strip_prefix "rue" rest)
          else if (n =? 102)%N then
            option_map (pair (JBool false)) (strip_prefix "alse" rest)
          else if (n =? 110)%N then
            option_map (pair JNull) (strip_prefix "ull" rest)
          else
            match parse_number (String c rest) with
            | Some (k, rest') => Some (JNum k, rest')
            | None => None
            end
      end
  end

with parse_items (fuel : nat) (s : string) {struct fuel}
  : option (list json * string) :=
  match fuel with
  | O => None
  | S fuel' =>
      match parse_value fuel' s with
      | None => None
      | Some (v, rest) =>
          match skip_ws rest with
          | EmptyString => None
          | String c rest1 =>
              if (N_of_ascii c =? 44)%N then
                match parse_items fuel' rest1 with
                | Some (vs, rest2) => Some (v :: vs, rest2)
                | None => None
                end
              else if (N_of_ascii c =? 93)%N then Some ([v], rest1)
              else None
          end
      end
  end

with parse_members (fuel : nat) (s : string) {struct fuel}
  : option (list (string * json) * string) :=
  match fuel with
  | O => None
  | S fuel' =>
      match strip_prefix quote (skip_ws s) with
      | None => None
      | Some s1 =>
          match parse_chars s1 with
          | None => None
          | Some (key, s2) =>
              match strip_prefix ":" (skip_ws s2) with
              | None => None
              | Some s3 =>
                  match parse_value fuel' s3 with
                  | None => None
                  | Some (v, rest) =>
                      match skip_ws rest with
                      | EmptyString => None
                      | String c rest1 =>
                          if (N_of_ascii c =? 44)%N then
                            match parse_members fuel' rest1 with
                            | Some (kvs, rest2) => Some ((key, v) :: kvs, rest2)
                            | None => None
                            end
                          else if (N_of_ascii c =? 125)%N then
                            Some ([(key, v)], rest1)
                          else None
                      end
                  end
              end
          end
      end
  end.

(** [json.loads(text)] *)
Definition loads (text : string) : option json :=
  match parse_value (S (String.length text)) text with
  | Some (v, rest) =>
      match skip_ws rest with
      | EmptyString => Some v
      | String _ _ => None
      end
  | None => None
  end.

(** ** Configuration, run-time state and the world *)

(** The module-level variables set once from the command line. *)
Record config : Type := mkConfig {
  app_id : string;
  auth_url : string;
  hostname : string;
  password : string;
  position : string;
  user : string;
  clientid : string;
  port : string;
  client_secret : string;
  scope : string;
  ric : string;
  service : string
}.

(** What [requests.post] yields: it raises a [RequestException], or returns
    a response [r] with [r.status_code], [r.headers] and the value of
    [r.json()] ([None] when the body is not a JSON document). *)
Inductive http_reply : Type :=
| RequestException
| Response (status_code : Z) (headers : list (string * string))
           (body : option json).

Inductive event : Type :=
| Posted (url : string) (data : list (string * json)) (auth : string * string)
| WsSent (frame : string)
| Slept (seconds : Z).

Record state : Type := mkState {
  sts_token : json;
  refresh_token : json;
  expire_time : json;
  original_expire_time : json;
  logged_in : bool;
  web_socket_open : bool;
  http_script : list http_reply;
  trace : list event
}.

Definition set_logged_in (b : bool) (s : state) : state :=
  mkState (sts_token s) (refresh_token s) (expire_time s)
          (original_expire_time s) b (web_socket_open s)
          (http_script s) (trace s).

Definition set_web_socket_open (b : bool) (s : state) : state :=
  mkState (sts_token s) (refresh_token s) (expire_time s)
          (original_expire_time s) (logged_in s) b
          (http_script s) (trace s).

Definition set_credential (tok rt exp : json) (s : state) : state :=
  mkState tok rt exp (original_expire_time s) (logged_in s)
          (web_socket_open s) (http_script s) (trace s).

Definition set_original_expire_time (exp : json) (s : state) : state :=
  mkState (sts_token s) (refresh_token s) (expire_time s) exp
          (logged_in s) (web_socket_open s) (http_script s) (trace s).

Definition set_http_script (script : list http_reply) (s : state) : state :=
  mkState (sts_token s) (refresh_token s) (expire_time s)
          (original_expire_time s) (logged_in s) (web_socket_open s)
          script (trace s).

Definition emit (e : event) (s : state) : state :=
  mkState (sts_token s) (refresh_token s) (expire_time s)
          (original_expire_time s) (logged_in s) (web_socket_open s)
          (http_script s) (trace s ++ [e])%list.

(** ** The monad of the program: state and exceptions *)

Definition M (A : Type) : Type := state -> outcome A * state.

Definition ret {A} (a : A) : M A := fun s => (Ret a, s).

Definition bind {A B} (c : M A) (k : A -> M B) : M B :=
  fun s =>
    match c s with
    | (Ret a, s') => k a s'
    | (Raise e, s') => (Raise e, s')
    | (Unmodelled, s') => (Unmodelled, s')
    end.

Definition raise {A} (e : exn) : M A := fun s => (Raise e, s).

Definition lift {A} (o : outcome A) : M A := fun s => (o, s).

Definition modify (f : state -> state) : M unit := fun s => (Ret tt, f s).

Definition gets {A} (f : state -> A) : M A := fun s => (Ret (f s), s).

Declare Scope py_scope.
Delimit Scope py_scope with py.

Notation "x <- c ;; k" := (bind c (fun x => k))
  (at level 61, c at next level, right associativity) : py_scope.

Notation "c ;;; k" := (bind c (fun _ => k))
  (at level 61, right associativity) : py_scope.

#[local] Open Scope py_scope.

(** [sys.exit(code)] *)
Definition sys_exit {A} (code : Z) : M A := raise (SystemExit code).

(** [web_socket_app.send(text)] *)
Definition ws_send (text : string) : M unit := modify (emit (WsSent text)).

(** The frames sent on the WebSocket, in order. *)
Fixpoint frames (t : list event) : list string :=
  match t with
  | [] => []
  | WsSent f :: rest => f :: frames rest
  | _ :: rest => frames rest
  end.

(** ** The WebSocket side *)

Section Session.

Variable cfg : config.

Definition send_market_price_request (ric_name : string) : M unit :=
  let mp_req_json :=
    JObj [("ID", JNum 2);
          ("Key", JObj [("Name", JStr ric_name);
                        ("Service", JStr (service cfg))])] in
  ws_send (dumps mp_req_json).

Definition process_login_response (message_json : json) : M unit :=
  st <- lift (py_getitem message_json "State") ;;
  stream <- lift (py_getitem st "Stream") ;;
  failed <-
    (if negb (py_eq_str stream "Open") then ret true
     else
       st' <- lift (py_getitem message_json "State") ;;
       data <- lift (py_getitem st' "Data") ;;
       ret (negb (py_eq_str data "Ok"))) ;;
  if (failed : bool) then sys_exit 1
  else
    modify (set_logged_in true) ;;;
    send_market_price_request (ric cfg).

Definition process_message (message_json : json) : M unit :=
  message_type <- lift (py_getitem message_json "Type") ;;
  if py_eq_str message_type "Refresh" then
    has_domain <- lift (py_in "Domain" message_json) ;;
    if (has_domain : bool) then
      message_domain <- lift (py_getitem message_json "Domain") ;;
      if py_eq_str message_domain "Login" then
        process_login_response message_json
      else ret tt
    else ret tt
  else if py_eq_str message_type "Ping" then
    let pong_json := JObj [("Type", JStr "Pong")] in
    ws_send (dumps pong_json)
  else ret tt.

(** The dictionary that [send_login_request] serialises. *)
Definition login_json (auth_token : json) (is_refresh_token : bool) : json :=
  let elements :=
    dict_set "AuthenticationToken" auth_token
      (dict_set "Position" (JStr (position cfg))
         (dict_set "ApplicationId" (JStr (app_id cfg))
            [("ApplicationId", JStr "");
             ("Position", JStr "");
             ("AuthenticationToken", JStr "")])) in
  let base :=
    [("ID", JNum 1);
     ("Domain", JStr "Login");
     ("Key", JObj [("NameType", JStr "AuthnToken");
                   ("Elements", JObj elements)])] in
  JObj (if is_refresh_token then dict_set "Refresh" (JBool false) base
        else base).

Definition send_login_request (auth_token : json) (is_refresh_token : bool)
  : M unit :=
  ws_send (dumps (login_json auth_token is_refresh_token)).

(** [on_error] only prints the error. *)
Definition on_error (error : string) : M unit := ret tt.

Definition on_close : M unit := modify (set_web_socket_open false).

Definition on_open : M unit :=
  modify (set_web_socket_open true) ;;;
  tok <- gets sts_token ;;
  send_login_request tok false.

End Session.

(** ** Numbers: [int(...)], [float(...)] and [time.sleep] *)

(** The double nearest to an integer (round to nearest even); an integer
    beyond the range of doubles gives [infinity] here and [OverflowError]
    in [py_float]. *)
Definition float_of_Z (n : Z) : float :=
  SF2Prim (binary_normalize prec emax n 0 false).

(** [int(f)]: truncation toward zero. *)
Definition int_of_float (f : float) : outcome Z :=
  match Prim2SF f with
  | S754_zero _ => Ret 0
  | S754_finite sign m e =>
      let magnitude :=
        if 0 <=? e then Z.pos m * 2 ^ e else Z.pos m / 2 ^ (- e) in
      Ret (if sign then - magnitude else magnitude)
  | S754_infinity _ => Raise OverflowError
  | S754_nan => Raise ValueError
  end.

(** A string read as a decimal integer literal: digits with an optional
    leading minus sign. *)
Definition int_literal (s : string) : option Z :=
  option_map Z.of_int (NilZero.int_of_string s).

(** [int(v)]; a string in another format than [int_literal] is outside the
    model. *)
Definition py_int (v : json) : outcome Z :=
  match v with
  | JNum n => Ret n
  | JBool b => Ret (if b then 1 else 0)
  | JStr s => match int_literal s with Some n => Ret n | None => Unmodelled end
  | _ => Raise TypeError
  end.

Definition checked_float_of_Z (n : Z) : outcome float :=
  let f := float_of_Z n in
  match Prim2SF f with
  | S754_infinity _ => Raise OverflowError
  | _ => Ret f
  end.

(** [float(v)] *)
Definition py_float (v : json) : outcome float :=
  match v with
  | JNum n => checked_float_of_Z n
  | JBool b => Ret (if b then 1%float else 0%float)
  | JStr s =>
      match int_literal s with
      | Some n => Ret (float_of_Z n)
      | None => Unmodelled
      end
  | _ => Raise TypeError
  end.

(** [time.sleep(seconds)] for an integer argument. *)
Definition time_sleep (seconds : Z) : M unit :=
  if seconds <? 0 then raise ValueError else modify (emit (Slept seconds)).

(** [int(float(expire_time) * 0.90)] *)
Definition renewal_wait (expire : json) : outcome Z :=
  match py_float expire with
  | Ret f => int_of_float (PrimFloat.mul f 0.90%float)
  | Raise e => Raise e
  | Unmodelled => Unmodelled
  end.

(** ** Token acquisition *)

Definition lower_char (c : ascii) : ascii :=
  let n := N_of_ascii c in
  if ((65 <=? n) && (n <=? 90) || (192 <=? n) && (n <=? 222) && negb (n =? 215))%N
  then ascii_of_N (n + 32)
  else c.

Fixpoint lower (s : string) : string :=
  match s with
  | EmptyString => EmptyString
  | String c rest => String (lower_char c) (lower rest)
  end.

(** [r.headers[name]]: the header names are matched without regard to
    case, and an absent header raises [KeyError] of the lowered name. *)
Fixpoint header_get (headers : list (string * string)) (name : string)
  : outcome string :=
  match headers with
  | [] => Raise (KeyError (lower name))
  | (k, v) :: rest =>
      if String.eqb (lower k) (lower name) then Ret v else header_get rest name
  end.

Definition is_redirect (status : Z) : bool :=
  (status =? 301) || (status =? 302) || (status =? 307) || (status =? 308).

Definition no_token : json * json * json := (JNull, JNull, JNull).

Section Acquisition.

Variable cfg : config.

Definition request_data (current_refresh_token : json)
  : list (string * json) :=
  let data :=
    if negb (py_truthy current_refresh_token) then
      [("username", JStr (user cfg));
       ("password", JStr (password cfg));
       ("client_id", JStr (clientid cfg));
       ("grant_type", JStr "password");
       ("takeExclusiveSignOnControl", JBool true);
       ("scope", JStr (scope cfg))]
    else
      [("username", JStr (user cfg));
       ("client_id", JStr (clientid cfg));
       ("refresh_token", current_refresh_token);
       ("grant_type", JStr "refresh_token")] in
  if negb (String.eqb (client_secret cfg) "") then
    dict_set "client_secret" (JStr (client_secret cfg)) data
  else data.

(** [get_sts_token], by recursion on the replies still to come: every call
    makes one request and consumes one reply.  The depth of the nested
    Python calls, which the interpreter bounds, is not part of the model. *)
Fixpoint get_sts_token_from (script : list http_reply)
    (current_refresh_token : json) (url : option string)
  : M (json * json * json) :=
  let url := match url with None => auth_url cfg | Some u => u end in
  modify (emit (Posted url (request_data current_refresh_token)
                  (clientid cfg, client_secret cfg))) ;;;
  match script with
  | [] => lift Unmodelled
  | RequestException :: rest =>
      modify (set_http_script rest) ;;;
      ret no_token
  | Response status_code headers body :: rest =>
      modify (set_http_script rest) ;;;
      if status_code =? 200 then
        auth_json <- lift (match body with
                           | Some j => Ret j
                           | None => Raise JSONDecodeError
                           end) ;;
        access <- lift (py_getitem auth_json "access_token") ;;
        refresh <- lift (py_getitem auth_json "refresh_token") ;;
        expires <- lift (py_getitem auth_json "expires_in") ;;
        ret (access, refresh, expires)
      else if is_redirect status_code then
        new_host <- lift (header_get headers "Location") ;;
        get_sts_token_from rest current_refresh_token (Some new_host)
      else if (status_code =? 400) || (status_code =? 401) then
        if py_truthy current_refresh_token then
          get_sts_token_from rest JNull None
        else ret no_token
      else if (status_code =? 403) || (status_code =? 451) then
        ret no_token
      else
        get_sts_token_from rest current_refresh_token None
  end.

Definition get_sts_token (current_refresh_token : json) (url : option string)
  : M (json * json * json) :=
  fun s => get_sts_token_from (http_script s) current_refresh_token url s.

(** The request that a call makes, and the state once its reply has been
    taken from the script. *)
Definition request_event (current_refresh_token : json) (url : option string)
  : event :=
  Posted (match url with None => auth_url cfg | Some u => u end)
         (request_data current_refresh_token)
         (clientid cfg, client_secret cfg).

Definition after_request (current_refresh_token : json) (url : option string)
    (rest : list http_reply) (s : state) : state :=
  set_http_script rest (emit (request_event current_refresh_token url) s).

(** ** The renewal loop of [__main__] *)

(** [sts_token, refresh_token, expire_time = get_sts_token(rt)] followed by
    [if not sts_token: sys.exit(1)]. *)
Definition acquire_or_exit (rt : json) : M unit :=
  triple <- get_sts_token rt None ;;
  let '(tok, new_rt, exp) := triple in
  modify (set_credential tok new_rt exp) ;;;
  if negb (py_truthy tok) then sys_exit 1 else ret tt.

(** The statements before the WebSocket is started. *)
Definition startup : M unit :=
  acquire_or_exit JNull ;;;
  exp <- gets expire_time ;;
  modify (set_original_expire_time exp).

(** One iteration of [while True]. *)
Definition renewal_cycle : M unit :=
  exp <- gets expire_time ;;
  wait <- lift (renewal_wait exp) ;;
  time_sleep wait ;;;
  rt <- gets refresh_token ;;
  acquire_or_exit rt ;;;
  exp <- gets expire_time ;;
  orig <- gets original_expire_time ;;
  e <- lift (py_int exp) ;;
  o <- lift (py_int orig) ;;
  (if negb (e =? o) then
     acquire_or_exit JNull ;;;
     exp' <- gets expire_time ;;
     modify (set_original_expire_time exp')
   else ret tt) ;;;
  li <- gets logged_in ;;
  if (li : bool) then
    tok <- gets sts_token ;;
    send_login_request cfg tok true
  else ret tt.

Fixpoint renewal_loop (cycles : nat) : M unit :=
  match cycles with
  | O => ret tt
  | S n => renewal_cycle ;;; renewal_loop n
  end.

(** The statements of an iteration that follow the sleep, named for the
    lemmas about them ([renewal_cycle_unfold]). *)
Definition renew : M unit :=
  rt <- gets refresh_token ;;
  acquire_or_exit rt ;;;
  exp <- gets expire_time ;;
  orig <- gets original_expire_time ;;
  e <- lift (py_int exp) ;;
  o <- lift (py_int orig) ;;
  (if negb (e =? o) then
     acquire_or_exit JNull ;;;
     exp' <- gets expire_time ;;
     modify (set_original_expire_time exp')
   else ret tt) ;;;
  li <- gets logged_in ;;
  if (li : bool) then
    tok <- gets sts_token ;;
    send_login_request cfg tok true
  else ret tt.

(** The end of an iteration: the renewal login is sent when the session is
    logged in. *)
Definition push_login (s : state) : state :=
  if logged_in s
  then emit (WsSent (dumps (login_json cfg (sts_token s) true))) s
  else s.

End Acquisition.

(** ** Vocabulary of the statements *)

(** [v[k1][k2]...] on nested dictionaries. *)
Fixpoint json_path (keys : list string) (v : json) : option json :=
  match keys with
  | [] => Some v
  | key :: keys' =>
      match v with
      | JObj members =>
          match dict_get key members with
          | Some w => json_path keys' w
          | None => None
          end
      | _ => None
      end
  end.

Definition has_key (key : string) (members : list (string * json)) : bool :=
  existsb (fun kv => String.eqb (fst kv) key) members.

Fixpoint distinct_keys (members : list (string * json)) : bool :=
  match members with
  | [] => true
  | kv :: rest => negb (has_key (fst kv) rest) && distinct_keys rest
  end.

(** The values that a Python program can hold: no object has a key twice. *)
Fixpoint wf_json (v : json) : bool :=
  match v with
  | JArr items => forallb wf_json items
  | JObj members =>
      distinct_keys members && forallb (fun kv => wf_json (snd kv)) members
  | _ => true
  end.

(** Fuel that suffices to parse the text of a value. *)
Fixpoint size (v : json) : nat :=
  match v with
  | JArr items => S (list_sum (map (fun x => S (size x)) items))
  | JObj members => S (list_sum (map (fun kv => S (size (snd kv))) members))
  | _ => 1
  end.

Fixpoint all_number_chars (s : string) : bool :=
  match s with
  | EmptyString => true
  | String c rest => is_number_char c && all_number_chars rest
  end.

(** What may follow a value in the output of [dumps]: nothing, or a
    character that is not part of a number. *)
Definition ends_token (s : string) : bool :=
  match s with
  | EmptyString => true
  | String c _ => negb (is_number_char c) && negb (starts_fraction s)
  end.

(** The characters with which the text of a value starts. *)
Definition value_start (c : ascii) : bool :=
  let n := N_of_ascii c in
  (is_number_char c || (n =? 34) || (n =? 91) || (n =? 123)
   || (n =? 116) || (n =? 102) || (n =? 110))%N.

(** The text of the items of a list, as [dumps] writes it. *)
Definition items_text (items : list json) : string :=
  join ", " (map dumps items).

Definition members_text (members : list (string * json)) : string :=
  join ", " (map (fun kv => encode_string (fst kv) ++ ": " ++ dumps (snd kv))
               members).

Definition round_trip (v : json) : Prop :=
  wf_json v = true ->
  forall fuel rest,
    (size v <= fuel)%nat ->
    ends_token rest = true ->
    parse_value fuel (dumps v ++ rest) = Some (v, rest).

Fixpoint sleeps (t : list event) : list Z :=
  match t with
  | [] => []
  | Slept d :: rest => d :: sleeps rest
  | _ :: rest => sleeps rest
  end.

Fixpoint requests (t : list event) : list event :=
  match t with
  | [] => []
  | Posted u d a :: rest => Posted u d a :: requests rest
  | _ :: rest => requests rest
  end.

(** [only_requests s s']: from [s] to [s'] the program has only made HTTP
    requests; the variables of the session are the same. *)
Definition only_requests (s s' : state) : Prop :=
  sts_token s' = sts_token s /\
  refresh_token s' = refresh_token s /\
  expire_time s' = expire_time s /\
  original_expire_time s' = original_expire_time s /\
  logged_in s' = logged_in s /\
  web_socket_open s' = web_socket_open s /\
  exists t, trace s' = (trace s ++ t)%list /\ sleeps t = [] /\ frames t = [].

(** [no_sleep c]: running [c] only appends to the trace, and appends no
    sleep. *)
Definition no_sleep {A} (c : M A) : Prop :=
  forall s o s',
    c s = (o, s') -> exists t, trace s' = (trace s ++ t)%list /\ sleeps t = [].

Definition pong_frame : string :=
  "{" ++ quote ++ "Type" ++ quote ++ ": " ++ quote ++ "Pong" ++ quote ++ "}".

(** The login refresh messages that [process_login_response] rejects: the
    [State] of the message has a [Stream] that is not ["Open"], or its
    [Stream] is ["Open"] and its [Data] is not ["Ok"]. *)
Definition login_refused (members : list (string * json)) : Prop :=
  exists st,
    dict_get "State" members = Some (JObj st) /\
    ((exists stream,
         dict_get "Stream" st = Some stream /\ py_eq_str stream "Open" = false)
     \/
     (exists stream data,
         dict_get "Stream" st = Some stream /\ py_eq_str stream "Open" = true /\
         dict_get "Data" st = Some data /\ py_eq_str data "Ok" = false)).

(** The first of the three fields that a body lacks, in the order in which
    the code reads them. *)
Definition first_missing_field (members : list (string * json))
  : option string :=
  match dict_get "access_token" members with
  | None => Some "access_token"
  | Some _ =>
      match dict_get "refresh_token" members with
      | None => Some "refresh_token"
      | Some _ =>
          match dict_get "expires_in" members with
          | None => Some "expires_in"
          | Some _ => None
          end
      end
  end.

(** [wait_table n k]: for the [n] integers from [k] on, the wait computed in
    double precision is nine tenths of the expiry, rounded down. *)
Fixpoint wait_table (n : nat) (k : Z) : bool :=
  match n with
  | O => true
  | S n' =>
      match renewal_wait (JNum k) with
      | Ret v => (v =? 9 * k / 10) && wait_table n' (k + 1)
      | _ => false
      end
  end.

(** ** Sample data for the concrete runs *)

Definition sample_config : config :=
  mkConfig "256" "https://api.refinitiv.com:443/auth/oauth2/v1/token"
           "ws.example.net" "secret" "127.0.0.1/net" "alice" "client-1"
           "443" "" "trapi" "/TRI.N" "ELEKTRON_DD".

Definition sample_state (li : bool) (script : list http_reply) : state :=
  mkState (JStr "A1") (JStr "R1") (JNum 600) (JNum 600) li true script [].

Definition credential_body (access refresh : string) (expires : Z) : json :=
  JObj [("access_token", JStr access);
        ("refresh_token", JStr refresh);
        ("expires_in", JNum expires)].

Definition ok_reply (access refresh : string) (expires : Z) : http_reply :=
  Response 200 [] (Some (credential_body access refresh expires)).

Definition refused_message : list (string * json) :=
  [("Type", JStr "Refresh");
   ("Domain", JStr "Login");
   ("State", JObj [("Stream", JStr "Closed"); ("Data", JStr "Suspect")])].

Definition policy_change_state : state :=
  sample_state true [ok_reply "A2" "R2" 300; ok_reply "A3" "R3" 300;
                     ok_reply "A4" "R4" 300].

(** ** The password policy *)

Definition PASSWORD_LENGTH_MASK : Z := 1.
Definition PASSWORD_UPPERCASE_LETTER_MASK : Z := 2.
Definition PASSWORD_LOWERCASE_LETTER_MASK : Z := 4.
Definition PASSWORD_DIGIT_MASK : Z := 8.
Definition PASSWORD_SPECIAL_CHARACTER_MASK : Z := 16.
Definition PASSWORD_INVALID_CHARACTER_MASK : Z := 32.

Definition PASSWORD_LENGTH_MIN : Z := 30.
Definition PASSWORD_UPPERCASE_LETTER_MIN : Z := 1.
Definition PASSWORD_LOWERCASE_LETTER_MIN : Z := 1.
Definition PASSWORD_DIGIT_MIN : Z := 1.
Definition PASSWORD_SPECIAL_CHARACTER_MIN : Z := 1.
Definition PASSWORD_SPECIAL_CHARACTER_SET : string :=
  "~!@#$%^&*()-_=+[]{}|;:,.<>/?".
Definition PASSWORD_MIN_NUMBER_OF_CATEGORIES : Z := 3.

(** [lo <= c and c <= hi] on characters *)
Definition char_between (lo hi c : ascii) : bool :=
  ((N_of_ascii lo <=? N_of_ascii c) && (N_of_ascii c <=? N_of_ascii hi))%N.

(** [c in s] for a character [c] *)
Fixpoint char_in (c : ascii) (s : string) : bool :=
  match s with
  | EmptyString => false
  | String d rest => Ascii.eqb c d || char_in c rest
  end.

Definition is_upper (c : ascii) : bool := char_between "A" "Z" c.
Definition is_lower (c : ascii) : bool := char_between "a" "z" c.
Definition is_digit (c : ascii) : bool := char_between "0" "9" c.
Definition is_special (c : ascii) : bool :=
  char_in c PASSWORD_SPECIAL_CHARACTER_SET.

(** The local variables of [check_new_password] that its loop updates. *)
Record policy_scan : Type := mkScan {
  scan_result : Z;
  countUpper : Z;
  countLower : Z;
  countDigit : Z;
  countSpecial : Z
}.

(** The body of [for c in pwd]. *)
Definition scan_char (st : policy_scan) (c : ascii) : policy_scan :=
  mkScan
    (if negb (is_upper c || is_lower c || is_digit c || is_special c)
     then Z.lor (scan_result st) PASSWORD_INVALID_CHARACTER_MASK
     else scan_result st)
    (if is_upper c then countUpper st + 1 else countUpper st)
    (if is_lower c then countLower st + 1 else countLower st)
    (if is_digit c then countDigit st + 1 else countDigit st)
    (if is_special c then countSpecial st + 1 else countSpecial st).

Fixpoint scan_password (st : policy_scan) (pwd : string) : policy_scan :=
  match pwd with
  | EmptyString => st
  | String c rest => scan_password (scan_char st c) rest
  end.

Definition check_new_password (pwd : string) : Z :=
  let result := 0 in
  let result :=
    if Z.of_nat (String.length pwd) <? PASSWORD_LENGTH_MIN
    then Z.lor result PASSWORD_LENGTH_MASK else result in
  let st := scan_password (mkScan result 0 0 0 0) pwd in
  let result := scan_result st in
  let result :=
    if countUpper st <? PASSWORD_UPPERCASE_LETTER_MIN
    then Z.lor result PASSWORD_UPPERCASE_LETTER_MASK else result in
  let result :=
    if countLower st <? PASSWORD_LOWERCASE_LETTER_MIN
    then Z.lor result PASSWORD_LOWERCASE_LETTER_MASK else result in
  let result :=
    if countDigit st <? PASSWORD_DIGIT_MIN
    then Z.lor result PASSWORD_DIGIT_MASK else result in
  let result :=
    if countSpecial st <? PASSWORD_SPECIAL_CHARACTER_MIN
    then Z.lor result PASSWORD_SPECIAL_CHARACTER_MASK else result in
  result.

(** The checks that [__main__] makes on [check_new_password(newPassword)]
    before it calls [changePassword]: each failure is [sys.exit(2)]. *)
Definition enforce_password_policy (newPassword : string) : outcome unit :=
  let policyResult := check_new_password newPassword in
  if negb (Z.land policyResult PASSWORD_INVALID_CHARACTER_MASK =? 0) then
    Raise (SystemExit 2)
  else if negb (Z.land policyResult PASSWORD_LENGTH_MASK =? 0) then
    Raise (SystemExit 2)
  else
    let countCategories := 0 in
    let countCategories :=
      if Z.land policyResult PASSWORD_UPPERCASE_LETTER_MASK =? 0
      then countCategories + 1 else countCategories in
    let countCategories :=
      if Z.land policyResult PASSWORD_LOWERCASE_LETTER_MASK =? 0
      then countCategories + 1 else countCategories in
    let countCategories :=
      if Z.land policyResult PASSWORD_DIGIT_MASK =? 0
      then countCategories + 1 else countCategories in
    let countCategories :=
      if Z.land policyResult PASSWORD_SPECIAL_CHARACTER_MASK =? 0
      then countCategories + 1 else countCategories in
    if countCategories <? PASSWORD_MIN_NUMBER_OF_CATEGORIES then
      Raise (SystemExit 2)
    else Ret tt.

(** ** The change of password and the start of [__main__] *)

Definition with_password (pw : string) (cfg : config) : config :=
  mkConfig (app_id cfg) (auth_url cfg) (hostname cfg) pw (position cfg)
           (user cfg) (clientid cfg) (port cfg) (client_secret cfg)
           (scope cfg) (ric cfg) (service cfg).

Definition with_position (pos : string) (cfg : config) : config :=
  mkConfig (app_id cfg) (auth_url cfg) (hostname cfg) (password cfg) pos
           (user cfg) (clientid cfg) (port cfg) (client_secret cfg)
           (scope cfg) (ric cfg) (service cfg).

Section PasswordChange.

Variable cfg : config.

(** The module-level variable [newPassword]. *)
Variable newPassword : string.

Definition change_password_data : list (string * json) :=
  [("username", JStr (user cfg));
   ("password", JStr (password cfg));
   ("client_id", JStr (clientid cfg));
   ("grant_type", JStr "password");
   ("takeExclusiveSignOnControl", JBool true);
   ("scope", JStr (scope cfg));
   ("newPassword", JStr newPassword)].

Definition change_password_event : event :=
  Posted (auth_url cfg) change_password_data (clientid cfg, client_secret cfg).

(** [r.json()] *)
Definition response_json (body : option json) : M json :=
  lift (match body with
        | Some j => Ret j
        | None => Raise JSONDecodeError
        end).

(** [changePassword], by recursion on the replies still to come; the depth
    of the nested calls is not part of the model. *)
Fixpoint changePassword_from (script : list http_reply) : M bool :=
  modify (emit change_password_event) ;;;
  match script with
  | [] => lift Unmodelled
  | RequestException :: rest =>
      modify (set_http_script rest) ;;;
      ret false
  | Response status_code headers body :: rest =>
      modify (set_http_script rest) ;;;
      if status_code =? 200 then
        auth_json <- response_json body ;;
        ret true
      else if is_redirect status_code then
        new_host <- lift (header_get headers "Location") ;;
        changePassword_from rest
      else if status_code >=? 400 then
        auth_json <- response_json body ;;
        ret false
      else
        changePassword_from rest
  end.

Definition changePassword : M bool :=
  fun s => changePassword_from (http_script s) s.

(** What [socket.gethostname()] returns, and what
    [socket.gethostbyname] returns for it ([None] when it raises
    [socket.gaierror]). *)
Variable position_host : string.
Variable position_address : option string.

(** [__main__] from the check of the required options to the first token:
    the value is the configuration as the assignments to [password] and
    [position] leave it. *)
Definition main_prologue : M config :=
  (if String.eqb (user cfg) "" || String.eqb (password cfg) ""
      || String.eqb (hostname cfg) "" || String.eqb (clientid cfg) ""
   then sys_exit 2 else ret tt) ;;;
  cfg1 <-
    (if negb (String.eqb newPassword "") then
       lift (enforce_password_policy newPassword) ;;;
       changed <- changePassword ;;
       (if negb (changed : bool) then sys_exit 2 else ret tt) ;;;
       ret (with_password newPassword cfg)
     else ret cfg) ;;
  let cfg2 :=
    if String.eqb (position cfg1) "" then
      match position_address with
      | Some address => with_position (address ++ "/" ++ position_host) cfg1
      | None => with_position "127.0.0.1/net" cfg1
      end
    else cfg1 in
  startup cfg2 ;;;
  ret cfg2.

End PasswordChange.

(** ** Frames received *)




Section Inbound.

Variable cfg : config.


End Inbound.

(** ** More vocabulary *)

Definition bit_if (b : bool) (mask : Z) : Z := if b then mask else 0.

Fixpoint has_char (p : ascii -> bool) (s : string) : bool :=
  match s with
  | EmptyString => false
  | String c rest => p c || has_char p rest
  end.

Fixpoint count_char (p : ascii -> bool) (s : string) : Z :=
  match s with
  | EmptyString => 0
  | String c rest => (if p c then 1 else 0) + count_char p rest
  end.

Definition valid_char (c : ascii) : bool :=
  is_upper c || is_lower c || is_digit c || is_special c.

(** The number of the four character categories that a password uses. *)
Definition categories_used (pwd : string) : Z :=
  bit_if (has_char is_upper pwd) 1 + bit_if (has_char is_lower pwd) 1
  + bit_if (has_char is_digit pwd) 1 + bit_if (has_char is_special pwd) 1.

(** The variables of the session, without the script and the trace. *)
Definition session_of (s : state) : json * json * json * json * bool * bool :=
  (sts_token s, refresh_token s, expire_time s, original_expire_time s,
   logged_in s, web_socket_open s).

Definition subscription_frame (cfg : config) : string :=
  dumps (JObj [("ID", JNum 2);
               ("Key", JObj [("Name", JStr (ric cfg));
                             ("Service", JStr (service cfg))])]).


Definition login_accepted (members : list (string * json)) : Prop :=
  dict_get "Type" members = Some (JStr "Refresh") /\
  dict_get "Domain" members = Some (JStr "Login") /\
  exists st,
    dict_get "State" members = Some (JObj st) /\
    dict_get "Stream" st = Some (JStr "Open") /\
    dict_get "Data" st = Some (JStr "Ok").

(** The messages that [process_message] ignores. *)
Definition ignored_message (members : list (string * json)) : Prop :=
  exists message_type,
    dict_get "Type" members = Some message_type /\
    py_eq_str message_type "Ping" = false /\
    (py_eq_str message_type "Refresh" = false \/
     dict_get "Domain" members = None \/
     exists domain,
       dict_get "Domain" members = Some domain /\
       py_eq_str domain "Login" = false).

(** A status that [get_sts_token] answers by repeating the request. *)
Definition retried_status (status : Z) : bool :=
  negb ((status =? 200) || is_redirect status
        || (status =? 400) || (status =? 401)
        || (status =? 403) || (status =? 451)).

(** The configuration once [position] has its default. *)
Definition default_position (host : string) (address : option string)
    (cfg : config) : config :=
  if String.eqb (position cfg) "" then
    match address with
    | Some a => with_position (a ++ "/" ++ host) cfg
    | None => with_position "127.0.0.1/net" cfg
    end
  else cfg.

Definition required_option_missing (cfg : config) : bool :=
  String.eqb (user cfg) "" || String.eqb (password cfg) ""
  || String.eqb (hostname cfg) "" || String.eqb (clientid cfg) "".

(** A request of [get_sts_token] called with [rt]: to some URL, with the
    form of [rt] or the form of the password grant, and with the client
    identifier and secret as HTTP authentication. *)
Definition sends_token_or_password (cfg : config) (rt : json) (e : event)
  : Prop :=
  exists u,
    e = Posted u (request_data cfg rt) (clientid cfg, client_secret cfg) \/
    e = Posted u (request_data cfg JNull) (clientid cfg, client_secret cfg).

(** [keeps_flags c]: running [c] leaves [logged_in] and [web_socket_open]
    as they are. *)
Definition keeps_flags {A} (c : M A) : Prop :=
  forall s o s',
    c s = (o, s') ->
    logged_in s' = logged_in s /\ web_socket_open s' = web_socket_open s.

(** ** More sample data *)

Definition long_password : string := "abcdefghijklmnopqrstuvwxyzABCD1234".

Definition accepted_message : list (string * json) :=
  [("ID", JNum 1); ("Type", JStr "Refresh"); ("Domain", JStr "Login");
   ("State", JObj [("Stream", JStr "Open"); ("Data", JStr "Ok")])].





(** * Properties *)

(** ** Connection callbacks *)

(** C1 (as stated, refuted): with the login flag set, it is still set after
    [on_close] and after [on_error]; neither handler resets it. *)
Lemma close_and_error_keep_login_flag :
  logged_in (snd (on_close (sample_state true []))) = true /\
  logged_in (snd (on_error "connection lost" (sample_state true []))) = true.
Proof. split; reflexivity. Qed.

(** C1 (amended): [on_close] resets [web_socket_open] to false and leaves
    [logged_in] and every other variable as they were; [on_error] changes
    nothing at all. *)
Theorem on_close_on_error_effect (s : state) (error : string) :
  on_close s = (Ret tt, set_web_socket_open false s) /\
  web_socket_open (snd (on_close s)) = false /\
  logged_in (snd (on_close s)) = logged_in s /\
  on_error error s = (Ret tt, s).
Proof. repeat split. Qed.

(** ** Inbound messages *)

(** C10: a message whose [Type] is [Ping] makes [process_message] send the
    single frame [{"Type": "Pong"}] and return; no variable of the session
    changes, whatever the login flag is. *)
Theorem ping_sends_one_pong (cfg : config) (s : state)
    (members : list (string * json))
    (Hping : dict_get "Type" members = Some (JStr "Ping")) :
  process_message cfg (JObj members) s = (Ret tt, emit (WsSent pong_frame) s) /\
  let s' := snd (process_message cfg (JObj members) s) in
  trace s' = (trace s ++ [WsSent pong_frame])%list /\
  logged_in s' = logged_in s /\
  web_socket_open s' = web_socket_open s /\
  sts_token s' = sts_token s /\
  refresh_token s' = refresh_token s /\
  expire_time s' = expire_time s /\
  original_expire_time s' = original_expire_time s /\
  http_script s' = http_script s.
Proof.
  assert (E : process_message cfg (JObj members) s
              = (Ret tt, emit (WsSent pong_frame) s)).
  { unfold process_message, bind, lift, py_getitem.
    rewrite Hping. reflexivity. }
  split; [exact E|]. rewrite E. cbn. repeat split.
Qed.

Lemma ping_sends_one_pong_witness :
  dict_get "Type" [("Type", JStr "Ping")] = Some (JStr "Ping") /\
  frames (trace (snd (process_message sample_config
                        (JObj [("Type", JStr "Ping")])
                        (sample_state false []))))
  = [pong_frame].
Proof.
  split; [reflexivity|].
  destruct (ping_sends_one_pong sample_config (sample_state false [])
              [("Type", JStr "Ping")] eq_refl) as [E _].
  rewrite E. reflexivity.
Defined.

(** C8 (what the code does): a login [Refresh] message whose
    [State.Stream] is not ["Open"] or whose [State.Data] is not ["Ok"] makes
    the handler raise [SystemExit(1)], the [sys.exit(1)] of
    [process_login_response]; the state is left as it was, so a false
    login flag stays false and no frame (the subscription request in
    particular) is sent.  The handler is a callback of the WebSocket
    thread, which this exception ends. *)
Theorem refused_login_exits (cfg : config) (s : state)
    (members : list (string * json))
    (Htype : dict_get "Type" members = Some (JStr "Refresh"))
    (Hdomain : dict_get "Domain" members = Some (JStr "Login"))
    (Hrefused : login_refused members) :
  process_message cfg (JObj members) s = (Raise (SystemExit 1), s) /\
  process_login_response cfg (JObj members) s = (Raise (SystemExit 1), s) /\
  (logged_in s = false ->
   logged_in (snd (process_message cfg (JObj members) s)) = false) /\
  frames (trace (snd (process_message cfg (JObj members) s)))
  = frames (trace s).
Proof.
  assert (L : process_login_response cfg (JObj members) s
              = (Raise (SystemExit 1), s)).
  { destruct Hrefused as (st & Hst & [(stream & Hs & Hno) |
                                     (stream & data & Hs & Hyes & Hd & Hno)]);
      unfold process_login_response, bind, lift, py_getitem;
      rewrite Hst, Hs.
    - rewrite Hno. reflexivity.
    - rewrite Hyes. cbn. rewrite Hd. cbn. rewrite Hno. reflexivity. }
  assert (P : process_message cfg (JObj members) s
              = (Raise (SystemExit 1), s)).
  { unfold process_message, bind, lift, py_getitem, py_in.
    rewrite Htype, Hdomain. cbn. exact L. }
  rewrite P. cbn. auto.
Qed.

Lemma refused_login_exits_witness :
  login_refused refused_message /\
  process_message sample_config (JObj refused_message) (sample_state false [])
  = (Raise (SystemExit 1), sample_state false []).
Proof.
  assert (R : login_refused refused_message).
  { exists [("Stream", JStr "Closed"); ("Data", JStr "Suspect")].
    split; [reflexivity|]. left. exists (JStr "Closed"). split; reflexivity. }
  split; [exact R|].
  exact (proj1 (refused_login_exits sample_config (sample_state false [])
                  refused_message eq_refl eq_refl R)).
Defined.

(** ** Token acquisition *)

Section AcquisitionFacts.

Variable cfg : config.

Lemma get_sts_token_after_request rt url rt' url' rest s :
  get_sts_token cfg rt' url' (after_request cfg rt url rest s)
  = get_sts_token_from cfg rest rt' url' (after_request cfg rt url rest s).
Proof. reflexivity. Qed.

Lemma get_sts_token_exception rt url rest s :
  http_script s = RequestException :: rest ->
  get_sts_token cfg rt url s = (Ret no_token, after_request cfg rt url rest s).
Proof. unfold get_sts_token. intros ->. reflexivity. Qed.

Lemma get_sts_token_200 rt url headers body rest s :
  http_script s = Response 200 headers body :: rest ->
  get_sts_token cfg rt url s
  = match body with
    | None => (Raise JSONDecodeError, after_request cfg rt url rest s)
    | Some auth_json =>
        (access <- lift (py_getitem auth_json "access_token") ;;
         refresh <- lift (py_getitem auth_json "refresh_token") ;;
         expires <- lift (py_getitem auth_json "expires_in") ;;
         ret (access, refresh, expires)) (after_request cfg rt url rest s)
    end.
Proof. unfold get_sts_token. intros ->. destruct body; reflexivity. Qed.

Lemma get_sts_token_redirect rt url status headers body rest s :
  http_script s = Response status headers body :: rest ->
  is_redirect status = true ->
  get_sts_token cfg rt url s
  = match header_get headers "Location" with
    | Ret new_host =>
        get_sts_token cfg rt (Some new_host) (after_request cfg rt url rest s)
    | Raise e => (Raise e, after_request cfg rt url rest s)
    | Unmodelled => (Unmodelled, after_request cfg rt url rest s)
    end.
Proof.
  unfold get_sts_token at 1. intros -> Hr.
  assert (H200 : (status =? 200) = false).
  { unfold is_redirect in Hr. destruct (status =? 200) eqn:E; [|reflexivity].
    apply Z.eqb_eq in E. subst status. discriminate Hr. }
  cbn [get_sts_token_from]. unfold bind at 1 2. cbn [modify].
  rewrite H200, Hr. unfold bind, lift.
  destruct (header_get headers "Location"); reflexivity.
Qed.

Lemma get_sts_token_rejected rt url status headers body rest s :
  http_script s = Response status headers body :: rest ->
  status = 400 \/ status = 401 ->
  get_sts_token cfg rt url s
  = if py_truthy rt
    then get_sts_token cfg JNull None (after_request cfg rt url rest s)
    else (Ret no_token, after_request cfg rt url rest s).
Proof.
  unfold get_sts_token at 1. intros -> [-> | ->];
    cbn; unfold bind; cbn; destruct (py_truthy rt); reflexivity.
Qed.

Lemma get_sts_token_forbidden rt url status headers body rest s :
  http_script s = Response status headers body :: rest ->
  status = 403 \/ status = 451 ->
  get_sts_token cfg rt url s = (Ret no_token, after_request cfg rt url rest s).
Proof.
  unfold get_sts_token at 1. intros -> [-> | ->]; reflexivity.
Qed.

Lemma password_grant_data :
  dict_get "grant_type" (request_data cfg JNull) = Some (JStr "password") /\
  dict_get "password" (request_data cfg JNull) = Some (JStr (password cfg)) /\
  dict_get "refresh_token" (request_data cfg JNull) = None.
Proof.
  unfold request_data. cbn [py_truthy negb].
  destruct (String.eqb (client_secret cfg) ""); repeat split.
Qed.

Lemma refresh_grant_data rt :
  py_truthy rt = true ->
  dict_get "grant_type" (request_data cfg rt) = Some (JStr "refresh_token") /\
  dict_get "refresh_token" (request_data cfg rt) = Some rt /\
  dict_get "password" (request_data cfg rt) = None.
Proof.
  intros H. unfold request_data. rewrite H. cbn [negb].
  destruct (String.eqb (client_secret cfg) ""); repeat split.
Qed.

End AcquisitionFacts.

(** C5: a call of [get_sts_token] whose request is answered with status 403
    or 451 returns the failure triple at once: it has made exactly one
    request and consumed exactly one reply. *)
Theorem forbidden_fails_without_retry (cfg : config) (rt : json)
    (url : option string) (status : Z) (headers : list (string * string))
    (body : option json) (rest : list http_reply) (s : state)
    (Hscript : http_script s = Response status headers body :: rest)
    (Hstatus : status = 403 \/ status = 451) :
  let r := get_sts_token cfg rt url s in
  fst r = Ret (JNull, JNull, JNull) /\
  trace (snd r) = (trace s ++ [request_event cfg rt url])%list /\
  http_script (snd r) = rest.
Proof.
  cbv zeta. rewrite (get_sts_token_forbidden cfg rt url status headers body rest s)
    by assumption.
  repeat split.
Qed.

Lemma forbidden_fails_without_retry_witness :
  let s := sample_state false [Response 403 [] None; ok_reply "A" "R" 600] in
  fst (get_sts_token sample_config (JStr "R1") None s)
  = Ret (JNull, JNull, JNull) /\
  http_script (snd (get_sts_token sample_config (JStr "R1") None s))
  = [ok_reply "A" "R" 600].
Proof.
  cbv zeta.
  destruct (forbidden_fails_without_retry sample_config (JStr "R1") None 403 []
              None [ok_reply "A" "R" 600]
              (sample_state false [Response 403 [] None; ok_reply "A" "R" 600])
              eq_refl (or_introl eq_refl)) as (H1 & _ & H3).
  split; assumption.
Defined.

(** C4: a call made with a refresh token whose request is answered with
    400 or 401 continues as one call with the password grant (no refresh
    token, the default URL); when that request is answered with 400 or 401
    too, the call returns the failure triple after these two requests. *)
Theorem rejected_refresh_retries_with_password (cfg : config) (rt : json)
    (url : option string) (status : Z) (headers : list (string * string))
    (body : option json) (rest : list http_reply) (s : state)
    (Hrt : py_truthy rt = true)
    (Hscript : http_script s = Response status headers body :: rest)
    (Hstatus : status = 400 \/ status = 401) :
  get_sts_token cfg rt url s
  = get_sts_token cfg JNull None (after_request cfg rt url rest s) /\
  dict_get "grant_type" (request_data cfg JNull) = Some (JStr "password") /\
  dict_get "refresh_token" (request_data cfg JNull) = None /\
  forall status2 headers2 body2 rest2,
    rest = Response status2 headers2 body2 :: rest2 ->
    status2 = 400 \/ status2 = 401 ->
    let r := get_sts_token cfg rt url s in
    fst r = Ret (JNull, JNull, JNull) /\
    trace (snd r)
    = (trace s ++ [request_event cfg rt url; request_event cfg JNull None])%list /\
    http_script (snd r) = rest2.
Proof.
  assert (E : get_sts_token cfg rt url s
              = get_sts_token cfg JNull None (after_request cfg rt url rest s)).
  { rewrite (get_sts_token_rejected cfg rt url status headers body rest s)
      by assumption.
    rewrite Hrt. reflexivity. }
  split; [exact E|].
  destruct (password_grant_data cfg) as (G & _ & R).
  split; [exact G|]. split; [exact R|].
  intros status2 headers2 body2 rest2 -> Hstatus2. cbv zeta. rewrite E.
  rewrite (get_sts_token_rejected cfg JNull None status2 headers2 body2 rest2)
    by (assumption || reflexivity).
  cbn. rewrite <- app_assoc. repeat split.
Qed.

Lemma rejected_refresh_retries_with_password_witness :
  let s := sample_state false [Response 401 [] None; Response 400 [] None] in
  py_truthy (JStr "R_old") = true /\
  get_sts_token sample_config (JStr "R_old") None s
  = get_sts_token sample_config JNull None
      (after_request sample_config (JStr "R_old") None [Response 400 [] None] s).
Proof.
  cbv zeta. split; [reflexivity|].
  exact (proj1 (rejected_refresh_retries_with_password sample_config
                  (JStr "R_old") None 401 [] None [Response 400 [] None]
                  (sample_state false [Response 401 [] None; Response 400 [] None])
                  eq_refl eq_refl (or_intror eq_refl))).
Defined.

(** C6 (what the code does): a redirect reply without a [Location] header
    makes [r.headers['Location']] raise [KeyError]; the call does not return
    the failure triple. *)
Theorem redirect_without_location_raises (cfg : config) (rt : json)
    (url : option string) (status : Z) (headers : list (string * string))
    (body : option json) (rest : list http_reply) (s : state)
    (Hscript : http_script s = Response status headers body :: rest)
    (Hstatus : is_redirect status = true)
    (Hmissing : forall v, header_get headers "Location" <> Ret v) :
  fst (get_sts_token cfg rt url s) = Raise (KeyError "location") /\
  fst (get_sts_token cfg rt url s) <> Ret no_token.
Proof.
  rewrite (get_sts_token_redirect cfg rt url status headers body rest s)
    by assumption.
  assert (K : header_get headers "Location" = Raise (KeyError "location")).
  { clear Hscript. induction headers as [|[k v] hs IH]; [reflexivity|].
    cbn in *. destruct (String.eqb (lower k) "location").
    - exfalso. exact (Hmissing v eq_refl).
    - exact (IH Hmissing). }
  rewrite K. cbn. split; [reflexivity|discriminate].
Qed.

Lemma redirect_without_location_raises_witness :
  fst (get_sts_token sample_config JNull None
         (sample_state false [Response 302 [("Server", "gw")] None]))
  = Raise (KeyError "location").
Proof.
  refine (proj1 (redirect_without_location_raises sample_config JNull None 302
                   [("Server", "gw")] None []
                   (sample_state false [Response 302 [("Server", "gw")] None])
                   eq_refl eq_refl _)).
  intros v. cbn. discriminate.
Defined.

(** C7 (as stated, refuted): a 200 reply whose body lacks [expires_in]
    makes the call raise [KeyError]; no failure value is returned. *)
Lemma missing_field_raises_key_error :
  fst (get_sts_token sample_config JNull None
         (sample_state false
            [Response 200 []
               (Some (JObj [("access_token", JStr "A");
                            ("refresh_token", JStr "R")]))]))
  = Raise (KeyError "expires_in").
Proof. reflexivity. Qed.

(** C7 (amended): on a 200 reply whose body is a JSON object, the call
    returns exactly the values of [access_token], [refresh_token] and
    [expires_in] when the three are present, after one request; when one is
    absent, the lookup of the first absent one raises [KeyError], which
    [get_sts_token] does not handle. *)
Theorem ok_reply_returns_fields_or_raises (cfg : config) (rt : json)
    (url : option string) (headers : list (string * string))
    (members : list (string * json)) (rest : list http_reply) (s : state)
    (Hscript : http_script s = Response 200 headers (Some (JObj members)) :: rest) :
  let r := get_sts_token cfg rt url s in
  snd r = after_request cfg rt url rest s /\
  (forall access refresh expires,
      dict_get "access_token" members = Some access ->
      dict_get "refresh_token" members = Some refresh ->
      dict_get "expires_in" members = Some expires ->
      fst r = Ret (access, refresh, expires)) /\
  (forall field,
      first_missing_field members = Some field ->
      fst r = Raise (KeyError field)).
Proof.
  cbv zeta.
  rewrite (get_sts_token_200 cfg rt url headers (Some (JObj members)) rest s)
    by assumption.
  unfold first_missing_field, bind, lift, ret, py_getitem.
  destruct (dict_get "access_token" members) as [a|];
    [destruct (dict_get "refresh_token" members) as [b|];
     [destruct (dict_get "expires_in" members) as [c|]|]|];
    cbn; (split; [reflexivity|]); split; intros; congruence.
Qed.

Lemma ok_reply_returns_fields_or_raises_witness :
  fst (get_sts_token sample_config JNull None
         (sample_state false [ok_reply "A1" "R1" 600]))
  = Ret (JStr "A1", JStr "R1", JNum 600).
Proof.
  exact (proj1 (proj2 (ok_reply_returns_fields_or_raises sample_config JNull
                         None [] _ []
                         (sample_state false [ok_reply "A1" "R1" 600]) eq_refl))
               (JStr "A1") (JStr "R1") (JNum 600) eq_refl eq_refl eq_refl).
Defined.

(** ** The renewal loop *)

Lemma sleeps_app t1 t2 : sleeps (t1 ++ t2) = (sleeps t1 ++ sleeps t2)%list.
Proof.
  induction t1 as [|[] t1 IH]; cbn; [reflexivity| | |f_equal]; exact IH.
Qed.

Lemma frames_app t1 t2 : frames (t1 ++ t2) = (frames t1 ++ frames t2)%list.
Proof.
  induction t1 as [|[] t1 IH]; cbn; [reflexivity| |f_equal|]; exact IH.
Qed.

Lemma only_requests_refl s : only_requests s s.
Proof.
  repeat split. exists []. rewrite app_nil_r. repeat split.
Qed.

Lemma only_requests_trans s1 s2 s3 :
  only_requests s1 s2 -> only_requests s2 s3 -> only_requests s1 s3.
Proof.
  intros (A1 & A2 & A3 & A4 & A5 & A6 & t & At & As & Af)
         (B1 & B2 & B3 & B4 & B5 & B6 & u & Bt & Bs & Bf).
  repeat split; try congruence.
  exists (t ++ u)%list. rewrite Bt, At, app_assoc, sleeps_app, frames_app.
  rewrite As, Af, Bs, Bf. repeat split.
Qed.

Section LoopFacts.

Variable cfg : config.

Lemma only_requests_after_request rt url rest s :
  only_requests s (after_request cfg rt url rest s).
Proof.
  repeat split. exists [request_event cfg rt url]. repeat split.
Qed.

Lemma get_sts_token_from_only_requests script :
  forall rt url s o s',
    get_sts_token_from cfg script rt url s = (o, s') -> only_requests s s'.
Proof.
  induction script as [|reply rest IH]; intros rt url s o s' H.
  - cbn in H. injection H as _ <-.
    apply (only_requests_after_request rt url (http_script s) s).
  - assert (step : forall rt' url',
               get_sts_token_from cfg rest rt' url'
                 (after_request cfg rt url rest s) = (o, s') ->
               only_requests s s').
    { intros rt' url' H'. eapply only_requests_trans;
        [apply only_requests_after_request | exact (IH _ _ _ _ _ H')]. }
    assert (stop : forall o0 : outcome (json * json * json),
               (o0, after_request cfg rt url rest s) = (o, s') ->
               only_requests s s').
    { intros o0 H'. injection H' as _ <-. apply only_requests_after_request. }
    destruct reply as [|status headers body]; cbn in H; unfold bind in H;
      cbn in H.
    + exact (stop _ H).
    + destruct (status =? 200).
      * destruct body as [auth_json|]; cbn in H; [|exact (stop _ H)].
        unfold bind, lift, ret in H.
        destruct (py_getitem auth_json "access_token");
          [|exact (stop _ H)|exact (stop _ H)].
        destruct (py_getitem auth_json "refresh_token");
          [|exact (stop _ H)|exact (stop _ H)].
        destruct (py_getitem auth_json "expires_in"); exact (stop _ H).
      * destruct (is_redirect status).
        { unfold bind, lift in H.
          destruct (header_get headers "Location");
            [exact (step _ _ H)|exact (stop _ H)|exact (stop _ H)]. }
        destruct ((status =? 400) || (status =? 401)).
        { destruct (py_truthy rt); [exact (step _ _ H)|exact (stop _ H)]. }
        destruct ((status =? 403) || (status =? 451));
          [exact (stop _ H)|exact (step _ _ H)].
Qed.

Lemma get_sts_token_only_requests rt url s o s' :
  get_sts_token cfg rt url s = (o, s') -> only_requests s s'.
Proof. apply get_sts_token_from_only_requests. Qed.

End LoopFacts.

Section CycleFacts.

Variable cfg : config.

Lemma acquire_or_exit_cases rt s :
  acquire_or_exit cfg rt s
  = match get_sts_token cfg rt None s with
    | (Ret (tok, new_rt, exp), s1) =>
        (if py_truthy tok then Ret tt else Raise (SystemExit 1),
         set_credential tok new_rt exp s1)
    | (Raise e, s1) => (Raise e, s1)
    | (Unmodelled, s1) => (Unmodelled, s1)
    end.
Proof.
  unfold acquire_or_exit, bind.
  destruct (get_sts_token cfg rt None s) as [[[[tok new_rt] exp]|e|] s1];
    try reflexivity.
  cbn. destruct (py_truthy tok); reflexivity.
Qed.

Lemma renewal_cycle_unfold :
  renewal_cycle cfg
  = (exp <- gets expire_time ;;
     wait <- lift (renewal_wait exp) ;;
     time_sleep wait ;;;
     renew cfg).
Proof. reflexivity. Qed.

Lemma renewal_cycle_after_wait s w :
  renewal_wait (expire_time s) = Ret w ->
  0 <= w ->
  renewal_cycle cfg s = renew cfg (emit (Slept w) s).
Proof.
  intros Hw Hpos. rewrite renewal_cycle_unfold.
  unfold bind at 1. cbn [gets]. unfold bind at 1. unfold lift. rewrite Hw.
  unfold bind at 1. unfold time_sleep.
  destruct (w <? 0) eqn:E; [apply Z.ltb_lt in E; lia|]. reflexivity.
Qed.

Lemma push_login_run s :
  (li <- gets logged_in ;;
   if (li : bool) then
     tok <- gets sts_token ;;
     send_login_request cfg tok true
   else ret tt) s
  = (Ret tt, push_login cfg s).
Proof.
  unfold push_login, bind, gets, send_login_request, ws_send, modify, ret.
  destruct (logged_in s); reflexivity.
Qed.

Lemma renew_unchanged_expiry s tok1 rt1 e1 s1 a :
  get_sts_token cfg (refresh_token s) None s = (Ret (tok1, rt1, e1), s1) ->
  py_truthy tok1 = true ->
  py_int e1 = Ret a ->
  py_int (original_expire_time s) = Ret a ->
  renew cfg s = (Ret tt, push_login cfg (set_credential tok1 rt1 e1 s1)).
Proof.
  intros H1 T1 Ha Hb.
  destruct (get_sts_token_only_requests cfg _ _ _ _ _ H1)
    as (_ & _ & _ & Horig & _).
  unfold renew. unfold bind at 1. cbn [gets].
  unfold bind at 1. rewrite acquire_or_exit_cases, H1, T1.
  unfold bind at 1. cbn [gets expire_time set_credential].
  unfold bind at 1. cbn [gets original_expire_time set_credential].
  rewrite Horig. unfold bind at 1. unfold lift at 1. rewrite Ha.
  unfold bind at 1. unfold lift at 1. rewrite Hb.
  rewrite Z.eqb_refl. cbn [negb]. unfold bind at 1. cbn [ret].
  apply push_login_run.
Qed.

Lemma renew_changed_expiry s tok1 rt1 e1 s1 a b tok2 rt2 e2 s2 :
  get_sts_token cfg (refresh_token s) None s = (Ret (tok1, rt1, e1), s1) ->
  py_truthy tok1 = true ->
  py_int e1 = Ret a ->
  py_int (original_expire_time s) = Ret b ->
  a <> b ->
  get_sts_token cfg JNull None (set_credential tok1 rt1 e1 s1)
  = (Ret (tok2, rt2, e2), s2) ->
  py_truthy tok2 = true ->
  renew cfg s
  = (Ret tt,
     push_login cfg (set_original_expire_time e2 (set_credential tok2 rt2 e2 s2))).
Proof.
  intros H1 T1 Ha Hb Hab H2 T2.
  destruct (get_sts_token_only_requests cfg _ _ _ _ _ H1)
    as (_ & _ & _ & Horig & _).
  unfold renew. unfold bind at 1. cbn [gets].
  unfold bind at 1. rewrite acquire_or_exit_cases, H1, T1.
  unfold bind at 1. cbn [gets expire_time set_credential].
  unfold bind at 1. cbn [gets original_expire_time set_credential].
  rewrite Horig. unfold bind at 1. unfold lift at 1. rewrite Ha.
  unfold bind at 1. unfold lift at 1. rewrite Hb.
  destruct (a =? b) eqn:E; [apply Z.eqb_eq in E; contradiction|].
  cbn [negb]. unfold bind at 1 2. rewrite acquire_or_exit_cases, H2, T2.
  unfold bind at 1. cbn [gets expire_time set_credential modify].
  apply push_login_run.
Qed.

Lemma no_sleep_pure {A} (c : M A) :
  (forall s, snd (c s) = s) -> no_sleep c.
Proof.
  intros H s o s' E. specialize (H s). rewrite E in H. cbn in H. subst s'.
  exists []. rewrite app_nil_r. split; reflexivity.
Qed.

Lemma no_sleep_bind {A B} (c : M A) (k : A -> M B) :
  no_sleep c -> (forall a, no_sleep (k a)) -> no_sleep (bind c k).
Proof.
  intros Hc Hk s o s' E. unfold bind in E.
  destruct (c s) as [[a|e|] s1] eqn:E1.
  - destruct (Hc _ _ _ E1) as (t1 & T1 & S1).
    destruct (Hk a _ _ _ E) as (t2 & T2 & S2).
    exists (t1 ++ t2)%list. rewrite T2, T1, app_assoc, sleeps_app, S1, S2.
    split; reflexivity.
  - injection E as _ <-. exact (Hc _ _ _ E1).
  - injection E as _ <-. exact (Hc _ _ _ E1).
Qed.

Lemma no_sleep_modify (f : state -> state) :
  (forall s, trace (f s) = trace s) -> no_sleep (modify f).
Proof.
  intros H s o s' E. injection E as _ <-. exists [].
  rewrite H, app_nil_r. split; reflexivity.
Qed.

Lemma no_sleep_ws_send text : no_sleep (ws_send text).
Proof.
  intros s o s' E. injection E as _ <-. exists [WsSent text].
  split; reflexivity.
Qed.

Lemma no_sleep_acquire_or_exit rt : no_sleep (acquire_or_exit cfg rt).
Proof.
  intros s o s' E. rewrite acquire_or_exit_cases in E.
  destruct (get_sts_token cfg rt None s) as [[[[tok new_rt] exp]|e|] s1] eqn:G;
    apply get_sts_token_only_requests in G;
    destruct G as (_ & _ & _ & _ & _ & _ & t & Ht & Hs & _);
    injection E as _ <-; exists t; split; assumption.
Qed.

Lemma no_sleep_renew : no_sleep (renew cfg).
Proof.
  unfold renew.
  repeat first
    [ apply no_sleep_acquire_or_exit
    | apply no_sleep_ws_send
    | apply no_sleep_bind; [|intros ?]
    | apply no_sleep_modify; reflexivity
    | apply no_sleep_pure; reflexivity
    | match goal with |- no_sleep (if ?b then _ else _) => destruct b end ].
Qed.

Lemma renew_inversion s s' :
  renew cfg s = (Ret tt, s') ->
  exists tok1 rt1 e1 s1 a b,
    get_sts_token cfg (refresh_token s) None s = (Ret (tok1, rt1, e1), s1) /\
    py_truthy tok1 = true /\
    py_int e1 = Ret a /\
    py_int (original_expire_time s) = Ret b /\
    ((a = b /\ s' = push_login cfg (set_credential tok1 rt1 e1 s1)) \/
     (a <> b /\
      exists tok2 rt2 e2 s2,
        get_sts_token cfg JNull None (set_credential tok1 rt1 e1 s1)
        = (Ret (tok2, rt2, e2), s2) /\
        py_truthy tok2 = true /\
        s' = push_login cfg
               (set_original_expire_time e2 (set_credential tok2 rt2 e2 s2)))).
Proof.
  intros H.
  destruct (get_sts_token cfg (refresh_token s) None s)
    as [[[[tok1 rt1] e1]|e|] s1] eqn:H1.
  2,3: unfold renew in H; unfold bind at 1 in H; cbn [gets] in H;
       unfold bind at 1 in H; rewrite acquire_or_exit_cases, H1 in H;
       discriminate H.
  destruct (py_truthy tok1) eqn:T1.
  2: unfold renew in H; unfold bind at 1 in H; cbn [gets] in H;
     unfold bind at 1 in H; rewrite acquire_or_exit_cases, H1, T1 in H;
     discriminate H.
  pose proof (get_sts_token_only_requests cfg _ _ _ _ _ H1)
    as (_ & _ & _ & Horig & _).
  destruct (py_int e1) as [a|x|] eqn:Ha.
  2,3: unfold renew in H; unfold bind at 1 in H; cbn [gets] in H;
       unfold bind at 1 in H; rewrite acquire_or_exit_cases, H1, T1 in H;
       unfold bind at 1 in H; cbn [gets expire_time set_credential] in H;
       unfold bind at 1 in H; cbn [gets] in H; unfold bind at 1 in H;
       unfold lift at 1 in H; rewrite Ha in H; discriminate H.
  destruct (py_int (original_expire_time s)) as [b|x|] eqn:Hb.
  2,3: unfold renew in H; unfold bind at 1 in H; cbn [gets] in H;
       unfold bind at 1 in H; rewrite acquire_or_exit_cases, H1, T1 in H;
       unfold bind at 1 in H; cbn [gets expire_time set_credential] in H;
       unfold bind at 1 in H;
       cbn [gets original_expire_time set_credential] in H;
       rewrite Horig in H; unfold bind at 1 in H;
       unfold lift at 1 in H; rewrite Ha in H; unfold bind at 1 in H;
       unfold lift at 1 in H; rewrite Hb in H; discriminate H.
  exists tok1, rt1, e1, s1, a, b. repeat (split; [first [assumption|reflexivity]|]).
  destruct (Z.eq_dec a b) as [<-|Hab].
  - left. split; [reflexivity|].
    rewrite (renew_unchanged_expiry s tok1 rt1 e1 s1 a H1 T1 Ha Hb) in H.
    injection H as <-. reflexivity.
  - right. split; [exact Hab|].
    destruct (get_sts_token cfg JNull None (set_credential tok1 rt1 e1 s1))
      as [[[[tok2 rt2] e2]|e|] s2] eqn:H2.
    2,3: exfalso.
    1: destruct (py_truthy tok2) eqn:T2.
    2: exfalso.
    + exists tok2, rt2, e2, s2. repeat (split; [first [assumption|reflexivity]|]).
      rewrite (renew_changed_expiry s _ _ _ _ a b _ _ _ _ H1 T1 Ha Hb Hab H2 T2)
        in H.
      injection H as <-. reflexivity.
    + revert H. unfold renew. unfold bind at 1. cbn [gets].
      unfold bind at 1. rewrite acquire_or_exit_cases, H1, T1.
      unfold bind at 1. cbn [gets expire_time set_credential].
      unfold bind at 1. cbn [gets original_expire_time set_credential].
      rewrite Horig. unfold bind at 1. unfold lift at 1. rewrite Ha.
      unfold bind at 1. unfold lift at 1. rewrite Hb.
      destruct (a =? b) eqn:E; [apply Z.eqb_eq in E; contradiction|].
      cbn [negb]. unfold bind at 1 2. rewrite acquire_or_exit_cases, H2, T2.
      discriminate.
    + revert H. unfold renew. unfold bind at 1. cbn [gets].
      unfold bind at 1. rewrite acquire_or_exit_cases, H1, T1.
      unfold bind at 1. cbn [gets expire_time set_credential].
      unfold bind at 1. cbn [gets original_expire_time set_credential].
      rewrite Horig. unfold bind at 1. unfold lift at 1. rewrite Ha.
      unfold bind at 1. unfold lift at 1. rewrite Hb.
      destruct (a =? b) eqn:E; [apply Z.eqb_eq in E; contradiction|].
      cbn [negb]. unfold bind at 1 2. rewrite acquire_or_exit_cases, H2.
      discriminate.
    + revert H. unfold renew. unfold bind at 1. cbn [gets].
      unfold bind at 1. rewrite acquire_or_exit_cases, H1, T1.
      unfold bind at 1. cbn [gets expire_time set_credential].
      unfold bind at 1. cbn [gets original_expire_time set_credential].
      rewrite Horig. unfold bind at 1. unfold lift at 1. rewrite Ha.
      unfold bind at 1. unfold lift at 1. rewrite Hb.
      destruct (a =? b) eqn:E; [apply Z.eqb_eq in E; contradiction|].
      cbn [negb]. unfold bind at 1 2. rewrite acquire_or_exit_cases, H2.
      discriminate.
Qed.

End CycleFacts.

Lemma requests_app t1 t2 :
  requests (t1 ++ t2) = (requests t1 ++ requests t2)%list.
Proof.
  induction t1 as [|[] t1 IH]; cbn; [reflexivity|f_equal| |]; exact IH.
Qed.

Lemma push_login_fields cfg s :
  sts_token (push_login cfg s) = sts_token s /\
  refresh_token (push_login cfg s) = refresh_token s /\
  expire_time (push_login cfg s) = expire_time s /\
  original_expire_time (push_login cfg s) = original_expire_time s /\
  http_script (push_login cfg s) = http_script s /\
  requests (trace (push_login cfg s)) = requests (trace s) /\
  sleeps (trace (push_login cfg s)) = sleeps (trace s).
Proof.
  unfold push_login. destruct (logged_in s); cbn; repeat split.
  - rewrite requests_app. cbn. apply app_nil_r.
  - rewrite sleeps_app. cbn. apply app_nil_r.
Qed.

(** C3: in an iteration of the renewal loop in which the credential obtained
    with the refresh token has an [expires_in] different from
    [original_expire_time], the loop calls [get_sts_token(None)] (password
    grant) once; when that call yields a credential, the iteration ends with
    this credential stored, [original_expire_time] set to its [expires_in],
    the renewal login pushed if logged in, and no request after that call. *)
Theorem expiry_change_reacquires_with_password (cfg : config) (s : state)
    (w : Z) (tok1 rt1 e1 : json) (s1 : state) (a b : Z)
    (tok2 rt2 e2 : json) (s2 : state)
    (Hwait : renewal_wait (expire_time s) = Ret w)
    (Hpos : 0 <= w)
    (Hfirst : get_sts_token cfg (refresh_token s) None (emit (Slept w) s)
              = (Ret (tok1, rt1, e1), s1))
    (Htok1 : py_truthy tok1 = true)
    (Hnew : py_int e1 = Ret a)
    (Horig : py_int (original_expire_time s) = Ret b)
    (Hdiff : a <> b)
    (Hsecond : get_sts_token cfg JNull None (set_credential tok1 rt1 e1 s1)
               = (Ret (tok2, rt2, e2), s2))
    (Htok2 : py_truthy tok2 = true) :
  let final :=
    push_login cfg (set_original_expire_time e2 (set_credential tok2 rt2 e2 s2)) in
  renewal_cycle cfg s = (Ret tt, final) /\
  original_expire_time final = e2 /\
  expire_time final = e2 /\
  sts_token final = tok2 /\
  refresh_token final = rt2 /\
  http_script final = http_script s2 /\
  requests (trace final) = requests (trace s2) /\
  dict_get "grant_type" (request_data cfg JNull) = Some (JStr "password") /\
  dict_get "refresh_token" (request_data cfg JNull) = None.
Proof.
  cbv zeta.
  destruct (push_login_fields cfg
              (set_original_expire_time e2 (set_credential tok2 rt2 e2 s2)))
    as (F1 & F2 & F3 & F4 & F5 & F6 & _).
  destruct (password_grant_data cfg) as (G & _ & R).
  split.
  - rewrite (renewal_cycle_after_wait cfg s w Hwait Hpos).
    exact (renew_changed_expiry cfg (emit (Slept w) s) tok1 rt1 e1 s1 a b
             tok2 rt2 e2 s2 Hfirst Htok1 Hnew Horig Hdiff Hsecond Htok2).
  - rewrite F1, F2, F3, F4, F5, F6. cbn. repeat split; assumption.
Qed.

Lemma expiry_change_reacquires_with_password_witness :
  let r := renewal_cycle sample_config policy_change_state in
  fst r = Ret tt /\
  original_expire_time (snd r) = JNum 300 /\
  refresh_token (snd r) = JStr "R3" /\
  requests (trace (snd r))
  = [request_event sample_config (JStr "R1") None;
     request_event sample_config JNull None].
Proof.
  cbv zeta.
  pose proof (expiry_change_reacquires_with_password sample_config
                policy_change_state 540
                (JStr "A2") (JStr "R2") (JNum 300)
                (after_request sample_config (JStr "R1") None
                   [ok_reply "A3" "R3" 300; ok_reply "A4" "R4" 300]
                   (emit (Slept 540) policy_change_state))
                300 600
                (JStr "A3") (JStr "R3") (JNum 300)
                (after_request sample_config JNull None
                   [ok_reply "A4" "R4" 300]
                   (set_credential (JStr "A2") (JStr "R2") (JNum 300)
                      (after_request sample_config (JStr "R1") None
                         [ok_reply "A3" "R3" 300; ok_reply "A4" "R4" 300]
                         (emit (Slept 540) policy_change_state)))))
    as H.
  cbv zeta in H.
  assert (Hwait : renewal_wait (expire_time policy_change_state) = Ret 540)
    by (vm_compute; reflexivity).
  assert (Hpos : 0 <= 540) by lia.
  assert (Hdiff : 300 <> 600) by lia.
  specialize (H Hwait Hpos eq_refl eq_refl eq_refl eq_refl Hdiff eq_refl eq_refl).
  destruct H as (E & H1 & _ & _ & H4 & _ & H6 & _).
  rewrite E. cbn [fst snd]. repeat split; assumption.
Defined.

(** *** The wait before a renewal *)

Lemma wait_table_sound n :
  forall k, wait_table n k = true ->
  forall E, k <= E < k + Z.of_nat n -> renewal_wait (JNum E) = Ret (9 * E / 10).
Proof.
  induction n as [|n IH]; intros k H E HE; [lia|].
  cbn [wait_table] in H.
  destruct (renewal_wait (JNum k)) as [v| |] eqn:Hk; try discriminate H.
  apply andb_prop in H. destruct H as [Hv Hrest].
  destruct (Z.eq_dec E k) as [->|Hne].
  - rewrite Hk. apply Z.eqb_eq in Hv. congruence.
  - apply (IH (k + 1) Hrest). lia.
Qed.

Lemma wait_table_100000 : wait_table (Z.to_nat 100001) 0 = true.
Proof. vm_compute. reflexivity. Qed.

Lemma renewal_wait_truncates E :
  0 <= E <= 100000 -> renewal_wait (JNum E) = Ret (9 * E / 10).
Proof.
  intros H. apply (wait_table_sound _ 0 wait_table_100000).
  rewrite Z2Nat.id; lia.
Qed.

Lemma renewal_cycle_wait_cases cfg s :
  match renewal_wait (expire_time s) with
  | Ret w =>
      if w <? 0 then renewal_cycle cfg s = (Raise ValueError, s)
      else renewal_cycle cfg s = renew cfg (emit (Slept w) s)
  | Raise e => renewal_cycle cfg s = (Raise e, s)
  | Unmodelled => renewal_cycle cfg s = (Unmodelled, s)
  end.
Proof.
  assert (E : renewal_cycle cfg s
              = match renewal_wait (expire_time s) with
                | Ret w => (time_sleep w ;;; renew cfg) s
                | Raise e => (Raise e, s)
                | Unmodelled => (Unmodelled, s)
                end).
  { rewrite renewal_cycle_unfold. unfold bind at 1. cbn [gets].
    unfold bind at 1. unfold lift.
    destruct (renewal_wait (expire_time s)); reflexivity. }
  rewrite E. destruct (renewal_wait (expire_time s)) as [w|e|]; try reflexivity.
  unfold bind, time_sleep. destruct (w <? 0); reflexivity.
Qed.

(** C2 (as stated, refuted): with [expires_in] 605 the loop sleeps 544
    seconds, which is not nine tenths of 605 (544.5). *)
Lemma wait_for_605_is_544 :
  let s := mkState (JStr "A1") (JStr "R1") (JNum 605) (JNum 605) false true
             [ok_reply "A2" "R2" 605] [] in
  sleeps (trace (snd (renewal_cycle sample_config s))) = [544] /\
  10 * 544 <> 9 * 605.
Proof. cbv zeta. split; [vm_compute; reflexivity|lia]. Qed.

(** C2 (amended): an iteration of the renewal loop sleeps exactly once,
    before anything else, for [int(float(expire_time) * 0.90)] seconds,
    where [expire_time] is the stored [expires_in]; an iteration that
    completes stores the [expires_in] of the credential it obtained last
    (the one of the password grant after a change of expiry, which also
    becomes [original_expire_time]), so the next wait is computed from it;
    and for an integer expiry from 0 to 100000 that wait is nine tenths of
    the expiry rounded down to a whole number of seconds. *)
Theorem wait_is_truncated_nine_tenths_of_latest_expiry (cfg : config)
    (s : state) :
  let r := renewal_cycle cfg s in
  (forall w, renewal_wait (expire_time s) = Ret w -> 0 <= w ->
     exists t, trace (snd r) = (trace s ++ Slept w :: t)%list /\ sleeps t = []) /\
  (fst r = Ret tt ->
   exists w tok1 rt1 e1 s1 a b,
     renewal_wait (expire_time s) = Ret w /\ 0 <= w /\
     get_sts_token cfg (refresh_token s) None (emit (Slept w) s)
     = (Ret (tok1, rt1, e1), s1) /\
     py_int e1 = Ret a /\
     py_int (original_expire_time s) = Ret b /\
     ((a = b /\ expire_time (snd r) = e1) \/
      (a <> b /\
       exists tok2 rt2 e2 s2,
         get_sts_token cfg JNull None (set_credential tok1 rt1 e1 s1)
         = (Ret (tok2, rt2, e2), s2) /\
         expire_time (snd r) = e2 /\
         original_expire_time (snd r) = e2))) /\
  (forall E, 0 <= E <= 100000 -> renewal_wait (JNum E) = Ret (9 * E / 10)).
Proof.
  cbv zeta. split; [|split].
  - intros w Hw Hpos. rewrite (renewal_cycle_after_wait cfg s w Hw Hpos).
    destruct (renew cfg (emit (Slept w) s)) as [o s'] eqn:E.
    destruct (no_sleep_renew cfg _ _ _ E) as (t & Ht & Hs).
    exists t. cbn [snd]. rewrite Ht. cbn [trace emit].
    rewrite <- app_assoc. split; [reflexivity|exact Hs].
  - intros Hret. pose proof (renewal_cycle_wait_cases cfg s) as C.
    destruct (renewal_wait (expire_time s)) as [w|e|] eqn:Hw;
      [|rewrite C in Hret; discriminate Hret
       |rewrite C in Hret; discriminate Hret].
    destruct (w <? 0) eqn:Hneg; [rewrite C in Hret; discriminate Hret|].
    apply Z.ltb_ge in Hneg. rewrite C in Hret |- *.
    destruct (renew cfg (emit (Slept w) s)) as [o s'] eqn:E.
    cbn [fst snd] in *. subst o.
    destruct (renew_inversion cfg _ _ E)
      as (tok1 & rt1 & e1 & s1 & a & b & H1 & _ & Ha & Hb & Hcase).
    exists w, tok1, rt1, e1, s1, a, b.
    repeat (split; [first [assumption|reflexivity]|]).
    destruct Hcase as [[Hab ->]|(Hab & tok2 & rt2 & e2 & s2 & H2 & _ & ->)].
    + left. split; [exact Hab|].
      destruct (push_login_fields cfg (set_credential tok1 rt1 e1 s1))
        as (_ & _ & F & _). rewrite F. reflexivity.
    + right. split; [exact Hab|]. exists tok2, rt2, e2, s2.
      destruct (push_login_fields cfg
                  (set_original_expire_time e2 (set_credential tok2 rt2 e2 s2)))
        as (_ & _ & F3 & F4 & _).
      rewrite F3, F4. repeat split. exact H2.
  - exact renewal_wait_truncates.
Qed.

(** ** json.loads after json.dumps *)

Lemma append_assoc (a b c : string) : (a ++ b) ++ c = a ++ (b ++ c).
Proof. induction a as [|x a IH]; cbn; [reflexivity|]. now rewrite IH. Qed.

Lemma append_empty_r (a : string) : a ++ "" = a.
Proof. induction a as [|x a IH]; cbn; [reflexivity|]. now rewrite IH. Qed.

Lemma length_append (a b : string) :
  String.length (a ++ b) = (String.length a + String.length b)%nat.
Proof. induction a as [|x a IH]; cbn; [reflexivity|]. now rewrite IH. Qed.

Lemma parse_chars_escape_char (c : ascii) (tail : string) :
  parse_chars (escape_char c ++ tail) = cons_char c (parse_chars tail).
Proof.
  destruct c as [[] [] [] [] [] [] [] []]; reflexivity.
Qed.

Lemma parse_chars_escape_string (s rest : string) :
  parse_chars (escape_string s ++ quote ++ rest) = Some (s, rest).
Proof.
  induction s as [|c s IH]; [reflexivity|].
  cbn [escape_string]. rewrite append_assoc, parse_chars_escape_char, IH.
  reflexivity.
Qed.

Lemma parse_encode_string (s rest : string) :
  strip_prefix quote (encode_string s ++ rest)
  = Some (escape_string s ++ quote ++ rest) /\
  parse_chars (escape_string s ++ quote ++ rest) = Some (s, rest).
Proof.
  split; [|apply parse_chars_escape_string].
  unfold encode_string. rewrite !append_assoc. reflexivity.
Qed.

Lemma string_of_uint_number_chars (d : Decimal.uint) :
  all_number_chars (NilEmpty.string_of_uint d) = true.
Proof. induction d; cbn; assumption || reflexivity. Qed.

Lemma string_of_Z_number_chars (n : Z) :
  all_number_chars (string_of_Z n) = true.
Proof.
  unfold string_of_Z.
  destruct n as [|p|p]; cbn [Z.to_int NilZero.string_of_int]; [reflexivity| |].
  - unfold NilZero.string_of_uint.
    destruct (Pos.to_uint p); try apply string_of_uint_number_chars. reflexivity.
  - cbn [all_number_chars]. unfold NilZero.string_of_uint.
    destruct (Pos.to_uint p); try apply string_of_uint_number_chars. reflexivity.
Qed.

Lemma span_number_token (token rest : string) :
  all_number_chars token = true ->
  ends_token rest = true ->
  span_number (token ++ rest) = (token, rest).
Proof.
  intros Ht Hr. induction token as [|c token IH]; cbn in *.
  - destruct rest as [|c rest]; [reflexivity|]. cbn in Hr.
    apply andb_prop in Hr. destruct Hr as [Hc _].
    cbn. apply negb_true_iff in Hc. rewrite Hc. reflexivity.
  - apply andb_prop in Ht. destruct Ht as [Hc Ht]. rewrite Hc, (IH Ht).
    reflexivity.
Qed.

Lemma int_of_string_of_Z (n : Z) :
  option_map Z.of_int (NilZero.int_of_string (string_of_Z n)) = Some n.
Proof.
  unfold string_of_Z. rewrite NilZero.isi.
  - cbn. now rewrite DecimalZ.of_to.
  - destruct n; cbn; try discriminate. intros [= H].
    exact (DecimalPos.Unsigned.to_uint_nonnil _ H).
  - destruct n; cbn; try discriminate. intros [= H].
    exact (DecimalPos.Unsigned.to_uint_nonnil _ H).
Qed.

Lemma parse_number_string_of_Z (n : Z) (rest : string) :
  ends_token rest = true ->
  parse_number (string_of_Z n ++ rest) = Some (n, rest).
Proof.
  intros Hr. unfold parse_number.
  rewrite (span_number_token _ _ (string_of_Z_number_chars n) Hr).
  assert (Hf : starts_fraction rest = false).
  { destruct rest as [|c rest]; [reflexivity|]. cbn [ends_token] in Hr.
    apply andb_prop in Hr. destruct Hr as [_ Hr].
    now apply negb_true_iff in Hr. }
  rewrite Hf, int_of_string_of_Z, String.eqb_refl. reflexivity.
Qed.

(** The first character of a number written by [dumps] is a digit or the
    minus sign. *)
Lemma string_of_Z_head (n : Z) :
  exists c tail, string_of_Z n = String c tail /\ is_number_char c = true.
Proof.
  pose proof (string_of_Z_number_chars n) as H.
  pose proof (int_of_string_of_Z n) as P.
  destruct (string_of_Z n) as [|c tail]; [discriminate P|].
  exists c, tail. split; [reflexivity|].
  cbn in H. now apply andb_prop in H.
Qed.

Lemma json_induction (P : json -> Prop) :
  P JNull ->
  (forall b, P (JBool b)) ->
  (forall n, P (JNum n)) ->
  (forall s, P (JStr s)) ->
  (forall items, Forall P items -> P (JArr items)) ->
  (forall members, Forall (fun kv => P (snd kv)) members -> P (JObj members)) ->
  forall v, P v.
Proof.
  intros Hnull Hbool Hnum Hstr Harr Hobj.
  fix IH 1. intros [ |b|n|s|items|members].
  - exact Hnull.
  - apply Hbool.
  - apply Hnum.
  - apply Hstr.
  - apply Harr. induction items as [|x items IHl]; constructor.
    + apply IH.
    + exact IHl.
  - apply Hobj. induction members as [|[k x] members IHl]; constructor.
    + apply IH.
    + exact IHl.
Qed.

Lemma dict_get_has_key key members :
  has_key key members = false -> dict_get key members = None.
Proof.
  induction members as [|[k v] rest IH]; cbn; [reflexivity|].
  intros H. apply orb_false_elim in H. destruct H as [Hk Hrest].
  rewrite Hk. exact (IH Hrest).
Qed.

Lemma dict_set_fresh key v members :
  has_key key members = false ->
  dict_set key v members = (members ++ [(key, v)])%list.
Proof.
  induction members as [|[k w] rest IH]; cbn; [reflexivity|].
  intros H. apply orb_false_elim in H. destruct H as [Hk Hrest].
  rewrite Hk, (IH Hrest). reflexivity.
Qed.

Lemma has_key_app key m1 m2 :
  has_key key (m1 ++ m2) = has_key key m1 || has_key key m2.
Proof. apply existsb_app. Qed.

Lemma fold_dict_set_distinct members :
  forall acc,
    distinct_keys members = true ->
    forallb (fun kv => negb (has_key (fst kv) acc)) members = true ->
    fold_left (fun d kv => dict_set (fst kv) (snd kv) d) members acc
    = (acc ++ members)%list.
Proof.
  induction members as [|[k v] rest IH]; intros acc Hd Hacc; cbn.
  - now rewrite app_nil_r.
  - cbn in Hd, Hacc. apply andb_prop in Hd. destruct Hd as [Hk Hd].
    apply andb_prop in Hacc. destruct Hacc as [Hka Hacc].
    apply negb_true_iff in Hk, Hka.
    rewrite (dict_set_fresh k v acc Hka), IH.
    + now rewrite <- app_assoc.
    + exact Hd.
    + clear IH Hd. induction rest as [|[k' v'] rest IHr]; [reflexivity|].
      cbn in *. apply orb_false_elim in Hk. destruct Hk as [Hkk Hk].
      apply andb_prop in Hacc. destruct Hacc as [Hk'a Hacc].
      rewrite has_key_app. cbn. rewrite String.eqb_sym, Hkk.
      apply negb_true_iff in Hk'a. rewrite Hk'a. cbn.
      exact (IHr Hk Hacc).
Qed.

Lemma dict_of_pairs_distinct members :
  distinct_keys members = true -> dict_of_pairs members = members.
Proof.
  intros H. unfold dict_of_pairs. rewrite fold_dict_set_distinct; auto.
  clear H. induction members as [|kv rest IH]; [reflexivity|]. exact IH.
Qed.

Lemma dumps_head (v : json) :
  exists c tail, dumps v = String c tail /\ value_start c = true.
Proof.
  destruct v as [ |[]|n|s|items|members]; cbn;
    try (eexists; eexists; split; reflexivity).
  destruct (string_of_Z_head n) as (c & tail & -> & Hc).
  exists c, tail. split; [reflexivity|]. unfold value_start. now rewrite Hc.
Qed.

Lemma skip_ws_value_start c tail :
  value_start c = true -> skip_ws (String c tail) = String c tail.
Proof.
  destruct c as [[] [] [] [] [] [] [] []]; cbn; intros H;
    reflexivity || discriminate H.
Qed.

Lemma skip_ws_dumps v rest : skip_ws (dumps v ++ rest) = dumps v ++ rest.
Proof.
  destruct (dumps_head v) as (c & tail & -> & Hc).
  apply (skip_ws_value_start c _ Hc).
Qed.

Lemma parse_value_number fuel c tail :
  is_number_char c = true ->
  parse_value (S fuel) (String c tail)
  = match parse_number (String c tail) with
    | Some (k, rest) => Some (JNum k, rest)
    | None => None
    end.
Proof.
  destruct c as [[] [] [] [] [] [] [] []]; intros H;
    (vm_compute in H; discriminate H) || reflexivity.
Qed.

Lemma ends_token_comma tail : ends_token (String "," tail) = true.
Proof. reflexivity. Qed.

Lemma ends_token_bracket tail : ends_token (String "]" tail) = true.
Proof. reflexivity. Qed.

Lemma ends_token_brace tail : ends_token (String "}" tail) = true.
Proof. reflexivity. Qed.

Lemma strip_bracket_dumps v rest :
  strip_prefix "]" (skip_ws (dumps v ++ rest)) = None.
Proof.
  rewrite skip_ws_dumps. destruct (dumps_head v) as (c & tail & -> & Hc).
  revert Hc. destruct c as [[] [] [] [] [] [] [] []]; intros H;
    (vm_compute in H; discriminate H) || reflexivity.
Qed.

Lemma skip_ws_idempotent s : skip_ws (skip_ws s) = skip_ws s.
Proof.
  induction s as [|c s IH]; [reflexivity|]. cbn.
  destruct (is_space c) eqn:E; [exact IH|]. cbn. now rewrite E.
Qed.

Lemma parse_value_skip_ws fuel s :
  parse_value fuel (skip_ws s) = parse_value fuel s.
Proof.
  destruct fuel; [reflexivity|]. cbn [parse_value].
  now rewrite skip_ws_idempotent.
Qed.

Lemma parse_items_skip_ws fuel s :
  parse_items fuel (skip_ws s) = parse_items fuel s.
Proof.
  destruct fuel; [reflexivity|]. cbn [parse_items].
  now rewrite parse_value_skip_ws.
Qed.

Lemma parse_items_more fuel s v tail :
  parse_value fuel s = Some (v, String "," (String " " tail)) ->
  parse_items (S fuel) s
  = match parse_items fuel tail with
    | Some (vs, rest) => Some (v :: vs, rest)
    | None => None
    end.
Proof.
  intros H. cbn [parse_items]. rewrite H.
  change (skip_ws (String "," (String " " tail)))
    with (String "," (String " " tail)).
  change (N_of_ascii "," =? 44)%N with true. cbv iota.
  rewrite <- (parse_items_skip_ws fuel (String " " tail)).
  change (skip_ws (String " " tail)) with (skip_ws tail).
  now rewrite parse_items_skip_ws.
Qed.

Lemma parse_items_last fuel s v tail :
  parse_value fuel s = Some (v, String "]" tail) ->
  parse_items (S fuel) s = Some ([v], tail).
Proof. intros H. cbn [parse_items]. rewrite H. reflexivity. Qed.

Lemma items_text_cons v v2 items tail :
  items_text (v :: v2 :: items) ++ tail
  = dumps v ++ String "," (String " " (items_text (v2 :: items) ++ tail)).
Proof.
  unfold items_text. cbn [map join]. now rewrite !append_assoc.
Qed.

Lemma parse_items_text items :
  Forall round_trip items ->
  forallb wf_json items = true ->
  items <> [] ->
  forall fuel rest,
    (list_sum (map (fun x => S (size x)) items) <= fuel)%nat ->
    parse_items fuel (items_text items ++ String "]" rest) = Some (items, rest).
Proof.
  induction 1 as [|v items Hv Hitems IH]; intros Hwf Hne fuel rest Hfuel;
    [contradiction|].
  cbn [forallb] in Hwf. apply andb_prop in Hwf. destruct Hwf as [Hwv Hwi].
  cbn [map list_sum fold_right] in Hfuel.
  destruct fuel as [|fuel]; [lia|].
  assert (Hfv : (size v <= fuel)%nat) by lia.
  destruct items as [|v2 items].
  - apply parse_items_last. unfold items_text. cbn [map join].
    exact (Hv Hwv fuel _ Hfv (ends_token_bracket rest)).
  - rewrite items_text_cons.
    rewrite (parse_items_more fuel _ v (items_text (v2 :: items) ++ String "]" rest)).
    + rewrite IH; [reflexivity|exact Hwi|discriminate|].
      change (fold_right Init.Nat.add 0%nat) with list_sum in Hfuel. lia.
    + exact (Hv Hwv fuel _ Hfv (ends_token_comma _)).
Qed.

Lemma parse_members_skip_ws fuel s :
  parse_members fuel (skip_ws s) = parse_members fuel s.
Proof.
  destruct fuel; [reflexivity|]. cbn [parse_members].
  now rewrite skip_ws_idempotent.
Qed.

Lemma parse_members_step fuel key text :
  parse_members (S fuel) (encode_string key ++ String ":" (String " " text))
  = match parse_value fuel text with
    | None => None
    | Some (v, rest) =>
        match skip_ws rest with
        | EmptyString => None
        | String c rest1 =>
            if (N_of_ascii c =? 44)%N then
              match parse_members fuel rest1 with
              | Some (kvs, rest2) => Some ((key, v) :: kvs, rest2)
              | None => None
              end
            else if (N_of_ascii c =? 125)%N then Some ([(key, v)], rest1)
            else None
        end
    end.
Proof.
  cbn [parse_members]. unfold encode_string. rewrite !append_assoc.
  change (skip_ws (quote ++ escape_string key ++ quote ++
                   String ":" (String " " text)))
    with (quote ++ escape_string key ++ quote ++ String ":" (String " " text)).
  change (strip_prefix quote
            (quote ++ escape_string key ++ quote ++
             String ":" (String " " text)))
    with (Some (escape_string key ++ quote ++ String ":" (String " " text))).
  cbv iota. rewrite parse_chars_escape_string.
  change (strip_prefix ":" (skip_ws (String ":" (String " " text))))
    with (Some (String " " text)).
  cbv iota.
  rewrite <- (parse_value_skip_ws fuel (String " " text)).
  change (skip_ws (String " " text)) with (skip_ws text).
  now rewrite parse_value_skip_ws.
Qed.

Lemma members_text_cons kv kv2 members tail :
  members_text (kv :: kv2 :: members) ++ tail
  = encode_string (fst kv) ++
    String ":" (String " " (dumps (snd kv) ++
      String "," (String " " (members_text (kv2 :: members) ++ tail)))).
Proof.
  unfold members_text. cbn [map join]. now rewrite !append_assoc.
Qed.

Lemma members_text_one kv tail :
  members_text [kv] ++ tail
  = encode_string (fst kv) ++ String ":" (String " " (dumps (snd kv) ++ tail)).
Proof.
  unfold members_text. cbn [map join]. now rewrite !append_assoc.
Qed.

Lemma parse_members_text members :
  Forall (fun kv => round_trip (snd kv)) members ->
  forallb (fun kv => wf_json (snd kv)) members = true ->
  members <> [] ->
  forall fuel rest,
    (list_sum (map (fun kv => S (size (snd kv))) members) <= fuel)%nat ->
    parse_members fuel (members_text members ++ String "}" rest)
    = Some (members, rest).
Proof.
  induction 1 as [|[k v] members Hv Hmembers IH];
    intros Hwf Hne fuel rest Hfuel; [contradiction|].
  cbn [forallb snd] in Hwf. apply andb_prop in Hwf. destruct Hwf as [Hwv Hwm].
  cbn [map list_sum fold_right snd] in Hfuel. cbn [snd] in Hv.
  change (fold_right Init.Nat.add 0%nat) with list_sum in Hfuel.
  destruct fuel as [|fuel]; [lia|].
  assert (Hfv : (size v <= fuel)%nat) by lia.
  destruct members as [|kv2 members].
  - rewrite members_text_one, parse_members_step. cbn [fst snd].
    rewrite (Hv Hwv fuel _ Hfv (ends_token_brace rest)). reflexivity.
  - rewrite members_text_cons, parse_members_step. cbn [fst snd].
    rewrite (Hv Hwv fuel _ Hfv (ends_token_comma _)).
    change (skip_ws (String "," (String " "
              (members_text (kv2 :: members) ++ String "}" rest))))
      with (String "," (String " "
              (members_text (kv2 :: members) ++ String "}" rest))).
    change (N_of_ascii "," =? 44)%N with true. cbv iota.
    rewrite <- parse_members_skip_ws.
    change (skip_ws (String " "
              (members_text (kv2 :: members) ++ String "}" rest)))
      with (skip_ws (members_text (kv2 :: members) ++ String "}" rest)).
    rewrite parse_members_skip_ws.
    rewrite IH; [reflexivity|exact Hwm|discriminate|lia].
Qed.

Lemma strip_bracket_items v items tail :
  strip_prefix "]" (skip_ws (items_text (v :: items) ++ tail)) = None.
Proof.
  destruct items as [|v2 items].
  - unfold items_text. cbn [map join]. apply strip_bracket_dumps.
  - rewrite items_text_cons. apply strip_bracket_dumps.
Qed.

Lemma strip_brace_members kv members tail :
  strip_prefix "}" (skip_ws (members_text (kv :: members) ++ tail)) = None.
Proof.
  destruct members as [|kv2 members].
  - rewrite members_text_one. reflexivity.
  - rewrite members_text_cons. reflexivity.
Qed.

Lemma dumps_array items rest :
  dumps (JArr items) ++ rest = String "[" (items_text items ++ String "]" rest).
Proof.
  cbn [dumps]. fold (items_text items). now rewrite !append_assoc.
Qed.

Lemma dumps_object members rest :
  dumps (JObj members) ++ rest
  = String "{" (members_text members ++ String "}" rest).
Proof.
  cbn [dumps]. fold (members_text members). now rewrite !append_assoc.
Qed.

Theorem parse_value_dumps (v : json) : round_trip v.
Proof.
  induction v as [ |b|n|s|items IH|members IH] using json_induction;
    intros Hwf fuel rest Hfuel Hrest;
    (destruct fuel as [|fuel]; [cbn in Hfuel; lia|]).
  - reflexivity.
  - destruct b; reflexivity.
  - destruct (string_of_Z_head n) as (c & tail & E & Hc).
    cbn [dumps]. rewrite E. cbn [append].
    rewrite (parse_value_number fuel c _ Hc).
    change (String c (tail ++ rest)) with (String c tail ++ rest).
    rewrite <- E, (parse_number_string_of_Z n rest Hrest). reflexivity.
  - cbn [dumps]. unfold encode_string. rewrite !append_assoc.
    cbn [parse_value].
    change (skip_ws (quote ++ escape_string s ++ quote ++ rest))
      with (String (ascii_of_N 34) (escape_string s ++ quote ++ rest)).
    cbv iota.
    change (N_of_ascii (ascii_of_N 34) =? 34)%N with true. cbv iota.
    now rewrite parse_chars_escape_string.
  - rewrite dumps_array. cbn [wf_json] in Hwf. cbn [size] in Hfuel.
    destruct items as [|v items]; [reflexivity|].
    cbn [parse_value].
    change (skip_ws (String "[" (items_text (v :: items) ++ String "]" rest)))
      with (String "[" (items_text (v :: items) ++ String "]" rest)).
    cbv iota. change (N_of_ascii "[" =? 34)%N with false.
    change (N_of_ascii "[" =? 91)%N with true. cbv iota.
    rewrite strip_bracket_items.
    rewrite (parse_items_text (v :: items) IH Hwf); [reflexivity|discriminate|lia].
  - rewrite dumps_object. cbn [wf_json] in Hwf. cbn [size] in Hfuel.
    apply andb_prop in Hwf. destruct Hwf as [Hkeys Hwf].
    destruct members as [|kv members]; [reflexivity|].
    cbn [parse_value].
    change (skip_ws (String "{" (members_text (kv :: members) ++ String "}" rest)))
      with (String "{" (members_text (kv :: members) ++ String "}" rest)).
    cbv iota. change (N_of_ascii "{" =? 34)%N with false.
    change (N_of_ascii "{" =? 91)%N with false.
    change (N_of_ascii "{" =? 123)%N with true. cbv iota.
    rewrite strip_brace_members.
    rewrite (parse_members_text (kv :: members) IH Hwf);
      [|discriminate|lia].
    now rewrite (dict_of_pairs_distinct _ Hkeys).
Qed.

Lemma items_size_le_length items :
  Forall (fun v => (size v <= String.length (dumps v))%nat) items ->
  (list_sum (map (fun x => S (size x)) items)
   <= S (String.length (items_text items)))%nat.
Proof.
  induction 1 as [|v items Hv Hitems IH]; [cbn; lia|].
  cbn [map list_sum fold_right].
  change (fold_right Init.Nat.add 0%nat) with list_sum.
  destruct items as [|v2 items].
  - unfold items_text. cbn. lia.
  - pose proof (items_text_cons v v2 items "") as E.
    rewrite !append_empty_r in E. rewrite E, length_append. cbn [String.length].
    lia.
Qed.

Lemma members_size_le_length members :
  Forall (fun kv => (size (snd kv) <= String.length (dumps (snd kv)))%nat)
         members ->
  (list_sum (map (fun kv => S (size (snd kv))) members)
   <= S (String.length (members_text members)))%nat.
Proof.
  induction 1 as [|kv members Hv Hmembers IH]; [cbn; lia|].
  cbn [map list_sum fold_right].
  change (fold_right Init.Nat.add 0%nat) with list_sum.
  destruct members as [|kv2 members].
  - pose proof (members_text_one kv "") as E.
    rewrite !append_empty_r in E. rewrite E, length_append.
    cbn [String.length list_sum map fold_right]. lia.
  - pose proof (members_text_cons kv kv2 members "") as E.
    rewrite !append_empty_r in E. rewrite E, length_append.
    cbn [String.length]. rewrite length_append. cbn [String.length]. lia.
Qed.

Lemma size_le_length (v : json) : (size v <= String.length (dumps v))%nat.
Proof.
  induction v as [ |b|n|s|items IH|members IH] using json_induction.
  - cbn. lia.
  - destruct b; cbn; lia.
  - destruct (string_of_Z_head n) as (c & tail & E & _).
    cbn [dumps size]. rewrite E. cbn. lia.
  - cbn [dumps size]. unfold encode_string. rewrite !length_append. cbn. lia.
  - pose proof (dumps_array items "") as E. rewrite append_empty_r in E.
    rewrite E. cbn [size String.length]. rewrite length_append.
    cbn [String.length]. pose proof (items_size_le_length items IH). lia.
  - pose proof (dumps_object members "") as E. rewrite append_empty_r in E.
    rewrite E. cbn [size String.length]. rewrite length_append.
    cbn [String.length]. pose proof (members_size_le_length members IH). lia.
Qed.

(** [json.loads(json.dumps(v)) == v] for every value without a repeated
    key. *)
Theorem loads_dumps (v : json) :
  wf_json v = true -> loads (dumps v) = Some v.
Proof.
  intros Hwf. unfold loads.
  pose proof (parse_value_dumps v Hwf (S (String.length (dumps v))) ""
                ltac:(pose proof (size_le_length v); lia) eq_refl) as P.
  rewrite append_empty_r in P. rewrite P. reflexivity.
Qed.

(** ** The login frame *)

Lemma login_json_wf cfg auth_token is_refresh_token :
  wf_json auth_token = true ->
  wf_json (login_json cfg auth_token is_refresh_token) = true.
Proof.
  intros H. destruct is_refresh_token; cbn; rewrite H; reflexivity.
Qed.

(** C9: [send_login_request] sends one frame, the text of a JSON object;
    read back with [json.loads], the object has the given token at
    [Key.Elements.AuthenticationToken], has [Refresh] with the value false
    when [is_refresh_token] is true, and has no [Refresh] member when it is
    false. *)
Theorem login_frame_carries_token (cfg : config) (auth_token : json)
    (is_refresh_token : bool) (s : state)
    (Hwf : wf_json auth_token = true) :
  exists frame members,
    send_login_request cfg auth_token is_refresh_token s
    = (Ret tt, emit (WsSent frame) s) /\
    loads frame = Some (JObj members) /\
    json_path ["Key"; "Elements"; "AuthenticationToken"] (JObj members)
    = Some auth_token /\
    dict_get "Refresh" members
    = (if is_refresh_token then Some (JBool false) else None) /\
    dict_get "ID" members = Some (JNum 1) /\
    dict_get "Domain" members = Some (JStr "Login") /\
    json_path ["Key"; "NameType"] (JObj members) = Some (JStr "AuthnToken") /\
    json_path ["Key"; "Elements"; "ApplicationId"] (JObj members)
    = Some (JStr (app_id cfg)) /\
    json_path ["Key"; "Elements"; "Position"] (JObj members)
    = Some (JStr (position cfg)).
Proof.
  pose proof (loads_dumps _ (login_json_wf cfg auth_token is_refresh_token Hwf))
    as L.
  exists (dumps (login_json cfg auth_token is_refresh_token)).
  destruct is_refresh_token; eexists; (split; [reflexivity|]);
    (split; [exact L|]); repeat split.
Qed.

Lemma login_frame_carries_token_witness :
  wf_json (JStr "A1") = true /\
  exists frame members,
    send_login_request sample_config (JStr "A1") true (sample_state true [])
    = (Ret tt, emit (WsSent frame) (sample_state true [])) /\
    loads frame = Some (JObj members) /\
    json_path ["Key"; "Elements"; "AuthenticationToken"] (JObj members)
    = Some (JStr "A1") /\
    dict_get "Refresh" members = Some (JBool false).
Proof.
  destruct (login_frame_carries_token sample_config (JStr "A1") true
              (sample_state true []) eq_refl)
    as (frame & members & H1 & H2 & H3 & H4 & _).
  split; [reflexivity|].
  exists frame, members. repeat split; assumption.
Defined.

(** * More properties of the program *)

(** ** The password policy *)

Lemma count_char_nonneg p s : 0 <= count_char p s.
Proof.
  induction s as [|c s IH]; cbn [count_char]; [lia|]. destruct (p c); lia.
Qed.

Lemma count_char_lt_one p s : (count_char p s <? 1) = negb (has_char p s).
Proof.
  induction s as [|c s IH]; cbn [has_char count_char]; [reflexivity|].
  pose proof (count_char_nonneg p s). destruct (p c); cbn [orb negb].
  - apply Z.ltb_ge. lia.
  - rewrite <- IH. reflexivity.
Qed.

Lemma lor_invalid_twice r :
  Z.lor (Z.lor r PASSWORD_INVALID_CHARACTER_MASK) PASSWORD_INVALID_CHARACTER_MASK
  = Z.lor r PASSWORD_INVALID_CHARACTER_MASK.
Proof. now rewrite <- Z.lor_assoc, Z.lor_diag. Qed.

Lemma scan_password_spec pwd :
  forall st,
    scan_password st pwd
    = mkScan
        (if has_char (fun c => negb (valid_char c)) pwd
         then Z.lor (scan_result st) PASSWORD_INVALID_CHARACTER_MASK
         else scan_result st)
        (countUpper st + count_char is_upper pwd)
        (countLower st + count_char is_lower pwd)
        (countDigit st + count_char is_digit pwd)
        (countSpecial st + count_char is_special pwd).
Proof.
  induction pwd as [|c pwd IH]; intros [r u l d sp]; cbn [scan_password].
  - cbn. now rewrite !Z.add_0_r.
  - rewrite IH. unfold scan_char, valid_char.
    cbn [scan_result countUpper countLower countDigit countSpecial
         has_char count_char].
    f_equal; try (destruct (is_upper c), (is_lower c), (is_digit c),
                    (is_special c); lia).
    destruct (negb (is_upper c || is_lower c || is_digit c || is_special c));
      cbn [orb]; [|reflexivity].
    destruct (has_char _ pwd); [apply lor_invalid_twice|reflexivity].
Qed.

Lemma check_new_password_sum pwd :
  check_new_password pwd
  = bit_if (Z.of_nat (String.length pwd) <? 30) 1
    + bit_if (negb (has_char is_upper pwd)) 2
    + bit_if (negb (has_char is_lower pwd)) 4
    + bit_if (negb (has_char is_digit pwd)) 8
    + bit_if (negb (has_char is_special pwd)) 16
    + bit_if (has_char (fun c => negb (valid_char c)) pwd) 32.
Proof.
  unfold check_new_password. rewrite scan_password_spec.
  cbn [scan_result countUpper countLower countDigit countSpecial].
  cbn [Z.add]. unfold PASSWORD_LENGTH_MIN, PASSWORD_UPPERCASE_LETTER_MIN,
    PASSWORD_LOWERCASE_LETTER_MIN, PASSWORD_DIGIT_MIN,
    PASSWORD_SPECIAL_CHARACTER_MIN.
  rewrite !count_char_lt_one.
  destruct (Z.of_nat (String.length pwd) <? 30),
    (has_char is_upper pwd), (has_char is_lower pwd),
    (has_char is_digit pwd), (has_char is_special pwd),
    (has_char (fun c => negb (valid_char c)) pwd); reflexivity.
Qed.

(** X1: [check_new_password] returns the sum of the masks of the rules that
    the password breaks: 1 for fewer than 30 characters, 2, 4, 8 and 16 for
    no uppercase letter, no lowercase letter, no digit and no character of
    the special set, 32 for a character outside these four categories; so
    it returns 0 exactly for a password that breaks none. *)
Theorem check_new_password_reports_broken_rules (pwd : string) :
  check_new_password pwd
  = bit_if (Z.of_nat (String.length pwd) <? 30) 1
    + bit_if (negb (has_char is_upper pwd)) 2
    + bit_if (negb (has_char is_lower pwd)) 4
    + bit_if (negb (has_char is_digit pwd)) 8
    + bit_if (negb (has_char is_special pwd)) 16
    + bit_if (has_char (fun c => negb (valid_char c)) pwd) 32 /\
  (check_new_password pwd = 0 <->
   30 <= Z.of_nat (String.length pwd) /\
   has_char is_upper pwd = true /\ has_char is_lower pwd = true /\
   has_char is_digit pwd = true /\ has_char is_special pwd = true /\
   has_char (fun c => negb (valid_char c)) pwd = false).
Proof.
  split; [apply check_new_password_sum|].
  rewrite check_new_password_sum.
  destruct (Z.of_nat (String.length pwd) <? 30) eqn:L;
    [apply Z.ltb_lt in L|apply Z.ltb_ge in L];
    destruct (has_char is_upper pwd), (has_char is_lower pwd),
      (has_char is_digit pwd), (has_char is_special pwd),
      (has_char (fun c => negb (valid_char c)) pwd);
    cbn; split; intros H; try discriminate H; try lia;
      try (destruct H as (? & ? & ? & ? & ? & ?); discriminate || lia);
      repeat split; lia.
Qed.

(** X2: the checks of [__main__] let a new password through exactly when it
    has at least 30 characters, has no character outside the four
    categories, and uses at least three of the four categories; otherwise
    the program exits with code 2. *)
Theorem password_policy_accepts_exactly (pwd : string) :
  enforce_password_policy pwd
  = if (30 <=? Z.of_nat (String.length pwd))
       && negb (has_char (fun c => negb (valid_char c)) pwd)
       && (3 <=? categories_used pwd)
    then Ret tt else Raise (SystemExit 2).
Proof.
  unfold enforce_password_policy, categories_used.
  rewrite check_new_password_sum.
  rewrite (Z.leb_antisym (Z.of_nat (String.length pwd)) 30).
  destruct (Z.of_nat (String.length pwd) <? 30),
    (has_char is_upper pwd), (has_char is_lower pwd),
    (has_char is_digit pwd), (has_char is_special pwd),
    (has_char (fun c => negb (valid_char c)) pwd); reflexivity.
Qed.

(** ** The change of password *)

Section PasswordChangeFacts.

Variable cfg : config.
Variable newPassword : string.

Let posted := change_password_event cfg newPassword.

Lemma changePassword_from_requests script :
  forall s o s',
    changePassword_from cfg newPassword script s = (o, s') ->
    session_of s' = session_of s /\
    exists n, trace s' = (trace s ++ posted :: repeat posted n)%list.
Proof.
  induction script as [|reply rest IH]; intros s o s' H.
  - cbn in H. injection H as _ <-. split; [reflexivity|]. now exists 0%nat.
  - assert (stop : forall o0 : outcome bool,
               (o0, set_http_script rest (emit posted s)) = (o, s') ->
               session_of s' = session_of s /\
               exists n, trace s' = (trace s ++ posted :: repeat posted n)%list).
    { intros o0 H'. injection H' as _ <-. split; [reflexivity|].
      now exists 0%nat. }
    assert (step : changePassword_from cfg newPassword rest
                     (set_http_script rest (emit posted s)) = (o, s') ->
                   session_of s' = session_of s /\
                   exists n,
                     trace s' = (trace s ++ posted :: repeat posted n)%list).
    { intros H'. destruct (IH _ _ _ H') as (Hs & n & Ht).
      split; [exact Hs|]. exists (S n). rewrite Ht. cbn [trace emit set_http_script].
      rewrite <- app_assoc. reflexivity. }
    destruct reply as [|status headers body]; cbn in H; unfold bind in H;
      cbn in H; [exact (stop _ H)|].
    destruct (status =? 200).
    { unfold response_json, lift in H. destruct body; exact (stop _ H). }
    destruct (is_redirect status).
    { unfold bind, lift in H.
      destruct (header_get headers "Location");
        [exact (step H)|exact (stop _ H)|exact (stop _ H)]. }
    destruct (status >=? 400).
    { unfold response_json, lift, bind in H. destruct body; exact (stop _ H). }
    exact (step H).
Qed.

Lemma changePassword_answered status headers body rest s :
  http_script s = Response status headers body :: rest ->
  status = 200 \/ 400 <= status ->
  changePassword cfg newPassword s
  = (match body with
     | Some _ => Ret (status =? 200)
     | None => Raise JSONDecodeError
     end,
     set_http_script rest (emit posted s)).
Proof.
  unfold changePassword. intros -> Hst. cbn. unfold bind. cbn.
  destruct (status =? 200) eqn:E200.
  - unfold response_json, lift. destruct body; reflexivity.
  - assert (Hge : 400 <= status).
    { destruct Hst as [->|H]; [discriminate E200|exact H]. }
    assert (Hr : is_redirect status = false).
    { unfold is_redirect.
      destruct (status =? 301) eqn:E1; [apply Z.eqb_eq in E1; lia|].
      destruct (status =? 302) eqn:E2; [apply Z.eqb_eq in E2; lia|].
      destruct (status =? 307) eqn:E3; [apply Z.eqb_eq in E3; lia|].
      destruct (status =? 308) eqn:E4; [apply Z.eqb_eq in E4; lia|].
      reflexivity. }
    rewrite Hr. destruct (status >=? 400) eqn:E; [|rewrite Z.geb_leb in E;
      apply Z.leb_gt in E; lia].
    unfold response_json, lift, bind. destruct body; reflexivity.
Qed.

Lemma changePassword_repeated status headers body rest s :
  http_script s = Response status headers body :: rest ->
  (is_redirect status = true /\ exists v, header_get headers "Location" = Ret v)
  \/ (is_redirect status = false /\ status <> 200 /\ status < 400) ->
  changePassword cfg newPassword s
  = changePassword cfg newPassword (set_http_script rest (emit posted s)).
Proof.
  unfold changePassword at 1. intros -> Hcase. cbn. unfold bind. cbn.
  destruct Hcase as [(Hr & v & Hv)|(Hr & Hne & Hlt)].
  - assert (H200 : (status =? 200) = false).
    { destruct (status =? 200) eqn:E; [|reflexivity].
      apply Z.eqb_eq in E. subst. discriminate Hr. }
    rewrite H200, Hr. unfold bind, lift. rewrite Hv. reflexivity.
  - assert (H200 : (status =? 200) = false) by (apply Z.eqb_neq; exact Hne).
    rewrite H200, Hr.
    destruct (status >=? 400) eqn:E; [rewrite Z.geb_leb in E;
      apply Z.leb_le in E; lia|].
    reflexivity.
Qed.

End PasswordChangeFacts.

(** X3: whatever replies it gets, [changePassword] posts every request to
    [auth_url] with the same form (the old password and [newPassword]): the
    [Location] of a redirect is never used; and it changes no variable of
    the session. *)
Theorem change_password_posts_to_auth_url_only (cfg : config)
    (newPassword : string) (s : state) :
  let r := changePassword cfg newPassword s in
  session_of (snd r) = session_of s /\
  exists n,
    trace (snd r)
    = (trace s ++ repeat (Posted (auth_url cfg)
                            (change_password_data cfg newPassword)
                            (clientid cfg, client_secret cfg)) (S n))%list.
Proof.
  cbv zeta. destruct (changePassword cfg newPassword s) as [o s'] eqn:E.
  unfold changePassword in E.
  destruct (changePassword_from_requests cfg newPassword _ _ _ _ E)
    as (Hs & n & Ht).
  split; [exact Hs|]. exists n. exact Ht.
Qed.

(** X4: when the first reply has status 200, or a status of 400 or more,
    [changePassword] makes one request and reads the body as JSON: it
    returns [True] for 200 and [False] otherwise, and a body that is not
    JSON makes [r.json()] raise instead. *)
Theorem change_password_answer (cfg : config) (newPassword : string)
    (status : Z) (headers : list (string * string)) (body : option json)
    (rest : list http_reply) (s : state)
    (Hscript : http_script s = Response status headers body :: rest)
    (Hstatus : status = 200 \/ 400 <= status) :
  let r := changePassword cfg newPassword s in
  fst r = match body with
          | Some _ => Ret (status =? 200)
          | None => Raise JSONDecodeError
          end /\
  http_script (snd r) = rest /\
  trace (snd r) = (trace s ++ [change_password_event cfg newPassword])%list.
Proof.
  cbv zeta.
  rewrite (changePassword_answered cfg newPassword status headers body rest s
             Hscript Hstatus).
  repeat split.
Qed.

Lemma change_password_answer_witness :
  let s := sample_state false [Response 401 [] (Some (JObj []))] in
  fst (changePassword sample_config "new" s) = Ret false /\
  http_script (snd (changePassword sample_config "new" s)) = [].
Proof.
  cbv zeta.
  assert (Hstatus : 401 = 200 \/ 400 <= 401) by (right; lia).
  destruct (change_password_answer sample_config "new" 401 [] (Some (JObj []))
              [] (sample_state false [Response 401 [] (Some (JObj []))])
              eq_refl Hstatus) as (H1 & H2 & _).
  split; assumption.
Defined.

(** X5: a redirect that has a [Location] header, and a status below 400
    that is neither 200 nor a redirect, make [changePassword] send the same
    request again: the call continues as a fresh call on the remaining
    replies. *)
Theorem change_password_repeats_request (cfg : config) (newPassword : string)
    (status : Z) (headers : list (string * string)) (body : option json)
    (rest : list http_reply) (s : state)
    (Hscript : http_script s = Response status headers body :: rest)
    (Hstatus :
       (is_redirect status = true /\
        exists v, header_get headers "Location" = Ret v)
       \/ (is_redirect status = false /\ status <> 200 /\ status < 400)) :
  changePassword cfg newPassword s
  = changePassword cfg newPassword
      (set_http_script rest (emit (change_password_event cfg newPassword) s)).
Proof.
  exact (changePassword_repeated cfg newPassword status headers body rest s
           Hscript Hstatus).
Qed.

Lemma change_password_repeats_request_witness :
  let s := sample_state false
             [Response 302 [("Location", "https://other.example/token")] None;
              Response 200 [] (Some (JObj []))] in
  fst (changePassword sample_config "new" s) = Ret true /\
  requests (trace (snd (changePassword sample_config "new" s)))
  = [change_password_event sample_config "new";
     change_password_event sample_config "new"].
Proof.
  cbv zeta.
  rewrite (change_password_repeats_request sample_config "new" 302
             [("Location", "https://other.example/token")] None
             [Response 200 [] (Some (JObj []))]
             (sample_state false
                [Response 302 [("Location", "https://other.example/token")]
                   None;
                 Response 200 [] (Some (JObj []))])
             eq_refl
             (or_introl (conj eq_refl (ex_intro _ _ eq_refl)))).
  split; reflexivity.
Defined.

(** ** The start of [__main__] *)

Lemma get_sts_token_from_first_request cfg script :
  forall rt url s o s',
    get_sts_token_from cfg script rt url s = (o, s') ->
    exists t, trace s' = (trace s ++ request_event cfg rt url :: t)%list.
Proof.
  intros rt url s o s' H.
  assert (stop : forall o0 : outcome (json * json * json),
             (o0, after_request cfg rt url (tl script) s) = (o, s') ->
             exists t, trace s' = (trace s ++ request_event cfg rt url :: t)%list).
  { intros o0 H'. injection H' as _ <-. now exists []. }
  assert (step : forall rt' url',
             get_sts_token_from cfg (tl script) rt' url'
               (after_request cfg rt url (tl script) s) = (o, s') ->
             exists t, trace s' = (trace s ++ request_event cfg rt url :: t)%list).
  { intros rt' url' H'.
    destruct (get_sts_token_from_only_requests cfg _ _ _ _ _ _ H')
      as (_ & _ & _ & _ & _ & _ & t & Ht & _).
    exists t. rewrite Ht. cbn [trace after_request set_http_script emit].
    now rewrite <- app_assoc. }
  destruct script as [|reply rest]; cbn [tl] in *.
  - cbn in H. injection H as _ <-. now exists [].
  - destruct reply as [|status headers body]; cbn in H; unfold bind in H;
      cbn in H; [exact (stop _ H)|].
    destruct (status =? 200).
    { destruct body as [auth_json|]; cbn in H; [|exact (stop _ H)].
      unfold bind, lift, ret in H.
      destruct (py_getitem auth_json "access_token");
        [|exact (stop _ H)|exact (stop _ H)].
      destruct (py_getitem auth_json "refresh_token");
        [|exact (stop _ H)|exact (stop _ H)].
      destruct (py_getitem auth_json "expires_in"); exact (stop _ H). }
    destruct (is_redirect status).
    { unfold bind, lift in H.
      destruct (header_get headers "Location");
        [exact (step _ _ H)|exact (stop _ H)|exact (stop _ H)]. }
    destruct ((status =? 400) || (status =? 401)).
    { destruct (py_truthy rt); [exact (step _ _ H)|exact (stop _ H)]. }
    destruct ((status =? 403) || (status =? 451));
      [exact (stop _ H)|exact (step _ _ H)].
Qed.

Lemma startup_cases cfg s :
  startup cfg s
  = match get_sts_token cfg JNull None s with
    | (Ret (tok, rt, exp), s1) =>
        if py_truthy tok
        then (Ret tt, set_original_expire_time exp (set_credential tok rt exp s1))
        else (Raise (SystemExit 1), set_credential tok rt exp s1)
    | (Raise e, s1) => (Raise e, s1)
    | (Unmodelled, s1) => (Unmodelled, s1)
    end.
Proof.
  unfold startup. unfold bind at 1. rewrite acquire_or_exit_cases.
  destruct (get_sts_token cfg JNull None s) as [[[[tok rt] exp]|e|] s1];
    try reflexivity.
  destruct (py_truthy tok); reflexivity.
Qed.

Lemma startup_first_request cfg s :
  exists t,
    trace (snd (startup cfg s))
    = (trace s ++ request_event cfg JNull None :: t)%list.
Proof.
  rewrite startup_cases.
  destruct (get_sts_token cfg JNull None s) as [o s1] eqn:E.
  destruct (get_sts_token_from_first_request cfg _ _ _ _ _ _ E) as (t & Ht).
  exists t. destruct o as [[[tok rt] exp]|e|]; [destruct (py_truthy tok)| |];
    exact Ht.
Qed.

Section PrologueFacts.

Variable cfg : config.
Variable newPassword : string.
Variable position_host : string.
Variable position_address : option string.

Let finish (c : config) : M config :=
  startup (default_position position_host position_address c) ;;;
  ret (default_position position_host position_address c).

Lemma main_prologue_cases s :
  main_prologue cfg newPassword position_host position_address s
  = if required_option_missing cfg then (Raise (SystemExit 2), s)
    else if String.eqb newPassword "" then finish cfg s
    else
      match enforce_password_policy newPassword with
      | Ret _ =>
          match changePassword cfg newPassword s with
          | (Ret true, s1) => finish (with_password newPassword cfg) s1
          | (Ret false, s1) => (Raise (SystemExit 2), s1)
          | (Raise e, s1) => (Raise e, s1)
          | (Unmodelled, s1) => (Unmodelled, s1)
          end
      | Raise e => (Raise e, s)
      | Unmodelled => (Unmodelled, s)
      end.
Proof.
  unfold main_prologue, required_option_missing, finish, default_position.
  unfold bind at 1.
  destruct (String.eqb (user cfg) "" || String.eqb (password cfg) ""
            || String.eqb (hostname cfg) "" || String.eqb (clientid cfg) "");
    [reflexivity|].
  cbn [ret]. unfold bind at 1.
  destruct (String.eqb newPassword ""); cbn [negb]; [reflexivity|].
  unfold bind at 1. unfold lift at 1.
  destruct (enforce_password_policy newPassword) as [[]|e|]; try reflexivity.
  unfold bind at 1.
  destruct (changePassword cfg newPassword s) as [[[|]|e|] s1]; reflexivity.
Qed.

End PrologueFacts.

Lemma default_position_fields host address cfg :
  let c := default_position host address cfg in
  password c = password cfg /\ auth_url c = auth_url cfg /\
  position c <> "" /\
  (String.eqb (position cfg) "" = false -> c = cfg).
Proof.
  cbv zeta. unfold default_position.
  destruct (String.eqb (position cfg) "") eqn:E.
  - destruct address as [a|]; cbn; repeat split; try discriminate.
    destruct a; discriminate.
  - repeat split. apply String.eqb_neq. exact E.
Qed.

Lemma prologue_finish_value host address c s x :
  fst ((startup (default_position host address c) ;;;
        ret (default_position host address c)) s) = Ret x ->
  x = default_position host address c.
Proof.
  unfold bind.
  destruct (startup (default_position host address c) s) as [[[]|e|] s1];
    cbn; intros H; [now injection H|discriminate H|discriminate H].
Qed.

(** X6: [__main__] exits with code 2 before any request is made when one of
    [user], [password], [hostname], [clientid] is empty, and when a new
    password is given that the policy refuses: a refused new password is
    never sent. *)
Theorem main_exits_before_any_request (cfg : config) (newPassword : string)
    (host : string) (address : option string) (s : state)
    (Hbad : required_option_missing cfg = true \/
            (String.eqb newPassword "" = false /\
             enforce_password_policy newPassword = Raise (SystemExit 2))) :
  main_prologue cfg newPassword host address s = (Raise (SystemExit 2), s).
Proof.
  rewrite main_prologue_cases.
  destruct (required_option_missing cfg); [reflexivity|].
  destruct Hbad as [H|[Hnew Hpol]]; [discriminate H|].
  rewrite Hnew, Hpol. reflexivity.
Qed.

Lemma main_exits_before_any_request_witness :
  main_prologue sample_config "short" "host" None
    (sample_state false [ok_reply "A" "R" 600])
  = (Raise (SystemExit 2), sample_state false [ok_reply "A" "R" 600]).
Proof.
  apply main_exits_before_any_request. right.
  split; [reflexivity|vm_compute; reflexivity].
Defined.

(** X7: when the new password passes the policy and [changePassword]
    returns [True], the first token request of the run carries the new
    password and the configuration keeps it; when [changePassword] returns
    [False] the program exits with code 2 without asking for a token. *)
Theorem changed_password_is_used (cfg : config) (newPassword : string)
    (host : string) (address : option string) (s s1 : state) (changed : bool)
    (Hreq : required_option_missing cfg = false)
    (Hnew : String.eqb newPassword "" = false)
    (Hpolicy : enforce_password_policy newPassword = Ret tt)
    (Hchange : changePassword cfg newPassword s = (Ret changed, s1)) :
  let r := main_prologue cfg newPassword host address s in
  let cfg2 := default_position host address (with_password newPassword cfg) in
  if changed then
    password cfg2 = newPassword /\
    dict_get "password" (request_data cfg2 JNull) = Some (JStr newPassword) /\
    (exists t,
        trace (snd r) = (trace s1 ++ request_event cfg2 JNull None :: t)%list) /\
    (forall c, fst r = Ret c -> c = cfg2)
  else r = (Raise (SystemExit 2), s1).
Proof.
  cbv zeta. rewrite main_prologue_cases, Hreq, Hnew, Hpolicy, Hchange.
  destruct changed; [|reflexivity].
  destruct (default_position_fields host address
              (with_password newPassword cfg)) as (Hp & _).
  cbn [password with_password] in Hp.
  split; [exact Hp|]. split.
  - destruct (password_grant_data
                (default_position host address (with_password newPassword cfg)))
      as (_ & H & _).
    rewrite H, Hp. reflexivity.
  - split.
    + destruct (startup_first_request
                  (default_position host address
                     (with_password newPassword cfg)) s1) as (t & Ht).
      exists t. rewrite <- Ht. unfold bind.
      destruct (startup _ s1) as [[[]|e|] s2]; reflexivity.
    + intros c Hc. exact (prologue_finish_value _ _ _ _ _ Hc).
Qed.

Lemma changed_password_is_used_witness :
  let cfg2 := default_position "host" None
                (with_password long_password sample_config) in
  enforce_password_policy long_password = Ret tt /\
  dict_get "password" (request_data cfg2 JNull) = Some (JStr long_password).
Proof.
  cbv zeta.
  assert (Hpolicy : enforce_password_policy long_password = Ret tt)
    by (vm_compute; reflexivity).
  split; [exact Hpolicy|].
  pose proof (changed_password_is_used sample_config long_password "host" None
                (sample_state false
                   [Response 200 [] (Some (JObj [])); ok_reply "A" "R" 600])
                (set_http_script [ok_reply "A" "R" 600]
                   (emit (change_password_event sample_config long_password)
                      (sample_state false
                         [Response 200 [] (Some (JObj []));
                          ok_reply "A" "R" 600])))
                true eq_refl eq_refl Hpolicy eq_refl) as H.
  cbv zeta in H. exact (proj1 (proj2 H)).
Defined.

(** X8: the configuration with which [__main__] goes on never has an empty
    [position]: a given position is kept, an empty one becomes
    [address/hostname] of the machine, or [127.0.0.1/net] when the address
    cannot be resolved. *)
Theorem position_is_never_empty (cfg : config) (newPassword : string)
    (host : string) (address : option string) (s : state) (c : config)
    (Hrun : fst (main_prologue cfg newPassword host address s) = Ret c) :
  position c <> "" /\
  position c
  = (if String.eqb (position cfg) "" then
       match address with
       | Some a => a ++ "/" ++ host
       | None => "127.0.0.1/net"
       end
     else position cfg).
Proof.
  rewrite main_prologue_cases in Hrun.
  assert (Hc : c = default_position host address cfg \/
               c = default_position host address (with_password newPassword cfg)).
  { destruct (required_option_missing cfg); [discriminate Hrun|].
    destruct (String.eqb newPassword "").
    - left. exact (prologue_finish_value _ _ _ _ _ Hrun).
    - destruct (enforce_password_policy newPassword); try discriminate Hrun.
      destruct (changePassword cfg newPassword s) as [[[|]|e|] s1];
        try discriminate Hrun.
      right. exact (prologue_finish_value _ _ _ _ _ Hrun). }
  destruct Hc as [-> | ->].
  - split; [apply default_position_fields|].
    unfold default_position. destruct (String.eqb (position cfg) "");
      [destruct address|]; reflexivity.
  - split; [apply default_position_fields|].
    unfold default_position. cbn [position with_password].
    destruct (String.eqb (position cfg) ""); [destruct address|]; reflexivity.
Qed.

Lemma position_is_never_empty_witness :
  position (with_position "10.0.0.7/host" sample_config) <> "".
Proof.
  refine (proj1 (position_is_never_empty (with_position "" sample_config) ""
                   "host" (Some "10.0.0.7")
                   (sample_state false [ok_reply "A" "R" 600])
                   (with_position "10.0.0.7/host" sample_config) _)).
  vm_compute. reflexivity.
Defined.

(** ** More on the token acquisition *)

Section AcquisitionMore.

Variable cfg : config.

Lemma get_sts_token_retried rt url status headers body rest s :
  http_script s = Response status headers body :: rest ->
  retried_status status = true ->
  get_sts_token cfg rt url s
  = get_sts_token cfg rt None (after_request cfg rt url rest s).
Proof.
  unfold get_sts_token at 1. intros -> H. unfold retried_status in H.
  apply negb_true_iff in H.
  repeat (apply orb_false_elim in H; destruct H as [H ?]).
  cbn [get_sts_token_from]. unfold bind at 1 2. cbn [modify].
  rewrite H.
  match goal with Hr : is_redirect status = false |- _ => rewrite Hr end.
  replace ((status =? 400) || (status =? 401)) with false
    by (symmetry; apply orb_false_intro; assumption).
  replace ((status =? 403) || (status =? 451)) with false
    by (symmetry; apply orb_false_intro; assumption).
  reflexivity.
Qed.

Lemma sends_password_weaken rt t :
  Forall (sends_token_or_password cfg JNull) t ->
  Forall (sends_token_or_password cfg rt) t.
Proof.
  apply Forall_impl. intros e (u & [H|H]); exists u; right; exact H.
Qed.

Lemma get_sts_token_from_requests script :
  forall rt url s o s',
    get_sts_token_from cfg script rt url s = (o, s') ->
    exists t, trace s' = (trace s ++ t)%list /\
              Forall (sends_token_or_password cfg rt) t.
Proof.
  induction script as [|reply rest IH]; intros rt url s o s' H.
  - cbn in H. injection H as _ <-. exists [request_event cfg rt url].
    split; [reflexivity|]. constructor; [|constructor].
    eexists. left. reflexivity.
  - assert (first : sends_token_or_password cfg rt (request_event cfg rt url))
      by (eexists; left; reflexivity).
    assert (stop : forall o0 : outcome (json * json * json),
               (o0, after_request cfg rt url rest s) = (o, s') ->
               exists t, trace s' = (trace s ++ t)%list /\
                         Forall (sends_token_or_password cfg rt) t).
    { intros o0 H'. injection H' as _ <-. exists [request_event cfg rt url].
      split; [reflexivity|]. constructor; [exact first|constructor]. }
    assert (step : forall rt' url',
               rt' = rt \/ rt' = JNull ->
               get_sts_token_from cfg rest rt' url'
                 (after_request cfg rt url rest s) = (o, s') ->
               exists t, trace s' = (trace s ++ t)%list /\
                         Forall (sends_token_or_password cfg rt) t).
    { intros rt' url' Hrt H'. destruct (IH _ _ _ _ _ H') as (t & Ht & Hall).
      exists (request_event cfg rt url :: t). split.
      - rewrite Ht. cbn [trace after_request set_http_script emit].
        now rewrite <- app_assoc.
      - constructor; [exact first|].
        destruct Hrt as [->| ->]; [exact Hall|].
        apply sends_password_weaken. exact Hall. }
    destruct reply as [|status headers body]; cbn in H; unfold bind in H;
      cbn in H; [exact (stop _ H)|].
    destruct (status =? 200).
    { destruct body as [auth_json|]; cbn in H; [|exact (stop _ H)].
      unfold bind, lift, ret in H.
      destruct (py_getitem auth_json "access_token");
        [|exact (stop _ H)|exact (stop _ H)].
      destruct (py_getitem auth_json "refresh_token");
        [|exact (stop _ H)|exact (stop _ H)].
      destruct (py_getitem auth_json "expires_in"); exact (stop _ H). }
    destruct (is_redirect status).
    { unfold bind, lift in H.
      destruct (header_get headers "Location");
        [exact (step _ _ (or_introl eq_refl) H)|exact (stop _ H)
        |exact (stop _ H)]. }
    destruct ((status =? 400) || (status =? 401)).
    { destruct (py_truthy rt);
        [exact (step _ _ (or_intror eq_refl) H)|exact (stop _ H)]. }
    destruct ((status =? 403) || (status =? 451));
      [exact (stop _ H)|exact (step _ _ (or_introl eq_refl) H)].
Qed.

End AcquisitionMore.

Section AcquisitionResult.

Variable cfg : config.

Lemma get_sts_token_from_credential script :
  forall rt url s triple s',
    get_sts_token_from cfg script rt url s = (Ret triple, s') ->
    triple = no_token \/
    exists consumed headers members,
      script
      = (consumed ++ Response 200 headers (Some (JObj members))
           :: http_script s')%list /\
      dict_get "access_token" members = Some (fst (fst triple)) /\
      dict_get "refresh_token" members = Some (snd (fst triple)) /\
      dict_get "expires_in" members = Some (snd triple).
Proof.
  induction script as [|reply rest IH]; intros rt url s triple s' H.
  - cbn in H. discriminate H.
  - assert (step : forall rt' url',
               get_sts_token_from cfg rest rt' url'
                 (after_request cfg rt url rest s) = (Ret triple, s') ->
               triple = no_token \/
               exists consumed headers members,
                 reply :: rest
                 = (consumed ++ Response 200 headers (Some (JObj members))
                      :: http_script s')%list /\
                 dict_get "access_token" members = Some (fst (fst triple)) /\
                 dict_get "refresh_token" members = Some (snd (fst triple)) /\
                 dict_get "expires_in" members = Some (snd triple)).
    { intros rt' url' H'.
      destruct (IH _ _ _ _ _ H') as [->|(c & h & m & E & F)]; [now left|].
      right. exists (reply :: c), h, m. split; [|exact F].
      cbn. now rewrite <- E. }
    assert (none : forall s0,
               (Ret no_token, s0) = (Ret triple, s') ->
               triple = no_token \/
               exists consumed headers members,
                 reply :: rest
                 = (consumed ++ Response 200 headers (Some (JObj members))
                      :: http_script s')%list /\
                 dict_get "access_token" members = Some (fst (fst triple)) /\
                 dict_get "refresh_token" members = Some (snd (fst triple)) /\
                 dict_get "expires_in" members = Some (snd triple)).
    { intros s0 H'. left. now injection H'. }
    destruct reply as [|status headers body]; cbn in H; unfold bind in H;
      cbn in H; [exact (none _ H)|].
    destruct (status =? 200) eqn:E200.
    { apply Z.eqb_eq in E200. subst status.
      destruct body as [auth_json|]; cbn in H; [|discriminate H].
      destruct auth_json as [ | | | | |members]; try discriminate H.
      unfold bind, lift, ret, py_getitem in H.
      destruct (dict_get "access_token" members) as [a|] eqn:Ea;
        [|discriminate H].
      destruct (dict_get "refresh_token" members) as [r|] eqn:Er;
        [|discriminate H].
      destruct (dict_get "expires_in" members) as [e|] eqn:Ee;
        [|discriminate H].
      injection H as <- <-. right. exists [], headers, members.
      repeat split; assumption. }
    destruct (is_redirect status).
    { unfold bind, lift in H.
      destruct (header_get headers "Location");
        [exact (step _ _ H)|discriminate H|discriminate H]. }
    destruct ((status =? 400) || (status =? 401)).
    { destruct (py_truthy rt); [exact (step _ _ H)|exact (none _ H)]. }
    destruct ((status =? 403) || (status =? 451));
      [exact (none _ H)|exact (step _ _ H)].
Qed.

Lemma get_sts_token_from_consumes script :
  forall rt url s o s',
    get_sts_token_from cfg script rt url s = (o, s') ->
    exists consumed t,
      trace s' = (trace s ++ t)%list /\
      match o with
      | Unmodelled =>
          consumed = script /\ List.length t = S (List.length script)
      | _ =>
          script = (consumed ++ http_script s')%list /\
          List.length t = List.length consumed /\ consumed <> []
      end.
Proof.
  induction script as [|reply rest IH]; intros rt url s o s' H.
  - cbn in H. injection H as <- <-. exists [], [request_event cfg rt url].
    repeat split.
  - assert (stop : forall o0 : outcome (json * json * json),
               o0 <> Unmodelled ->
               (o0, after_request cfg rt url rest s) = (o, s') ->
               exists consumed t,
                 trace s' = (trace s ++ t)%list /\
                 match o with
                 | Unmodelled =>
                     consumed = reply :: rest /\
                     List.length t = S (List.length (reply :: rest))
                 | _ =>
                     reply :: rest = (consumed ++ http_script s')%list /\
                     List.length t = List.length consumed /\ consumed <> []
                 end).
    { intros o0 Hne H'. injection H' as <- <-.
      exists [reply], [request_event cfg rt url].
      split; [reflexivity|].
      destruct o0; [| |contradiction]; repeat split; discriminate. }
    assert (step : forall rt' url',
               get_sts_token_from cfg rest rt' url'
                 (after_request cfg rt url rest s) = (o, s') ->
               exists consumed t,
                 trace s' = (trace s ++ t)%list /\
                 match o with
                 | Unmodelled =>
                     consumed = reply :: rest /\
                     List.length t = S (List.length (reply :: rest))
                 | _ =>
                     reply :: rest = (consumed ++ http_script s')%list /\
                     List.length t = List.length consumed /\ consumed <> []
                 end).
    { intros rt' url' H'. destruct (IH _ _ _ _ _ H') as (c & t & Ht & Ho).
      exists (reply :: c), (request_event cfg rt url :: t). split.
      - rewrite Ht. cbn [trace after_request set_http_script emit].
        now rewrite <- app_assoc.
      - destruct o; cbn [List.length app].
        + destruct Ho as (E & L & _). rewrite <- E, L.
          repeat split. discriminate.
        + destruct Ho as (E & L & _). rewrite <- E, L.
          repeat split. discriminate.
        + destruct Ho as (E & L). rewrite E, L. split; reflexivity. }
    destruct reply as [|status headers body]; cbn in H; unfold bind in H;
      cbn in H; [(refine (stop _ _ H); discriminate)|].
    destruct (status =? 200).
    { destruct body as [auth_json|]; cbn in H;
        [|(refine (stop _ _ H); discriminate)].
      unfold bind, lift, ret in H.
      destruct (py_getitem auth_json "access_token") eqn:E1;
        [|(refine (stop _ _ H); discriminate)
         |destruct auth_json; cbn in E1; try discriminate E1;
          destruct (dict_get "access_token" members); discriminate E1].
      destruct (py_getitem auth_json "refresh_token") eqn:E2;
        [|(refine (stop _ _ H); discriminate)
         |destruct auth_json; cbn in E2; try discriminate E2;
          destruct (dict_get "refresh_token" members); discriminate E2].
      destruct (py_getitem auth_json "expires_in") eqn:E3;
        [(refine (stop _ _ H); discriminate)
        |(refine (stop _ _ H); discriminate)
        |destruct auth_json; cbn in E3; try discriminate E3;
         destruct (dict_get "expires_in" members); discriminate E3]. }
    destruct (is_redirect status).
    { unfold bind, lift in H.
      destruct (header_get headers "Location") eqn:EL;
        [exact (step _ _ H)|(refine (stop _ _ H); discriminate)|].
      exfalso. clear -EL. induction headers as [|[k v] hs IHh];
        cbn in EL; [discriminate EL|].
      destruct (String.eqb (lower k) "location"); [discriminate EL|auto]. }
    destruct ((status =? 400) || (status =? 401)).
    { destruct (py_truthy rt);
        [exact (step _ _ H)|(refine (stop _ _ H); discriminate)]. }
    destruct ((status =? 403) || (status =? 451));
      [(refine (stop _ _ H); discriminate)|exact (step _ _ H)].
Qed.

End AcquisitionResult.

(** X9: when [requests.post] raises a [RequestException], [get_sts_token]
    returns the failure triple after that one request, without retry. *)
Theorem request_exception_fails (cfg : config) (rt : json)
    (url : option string) (rest : list http_reply) (s : state)
    (Hscript : http_script s = RequestException :: rest) :
  let r := get_sts_token cfg rt url s in
  fst r = Ret (JNull, JNull, JNull) /\
  trace (snd r) = (trace s ++ [request_event cfg rt url])%list /\
  http_script (snd r) = rest.
Proof.
  cbv zeta. rewrite (get_sts_token_exception cfg rt url rest s Hscript).
  repeat split.
Qed.

Lemma request_exception_fails_witness :
  fst (get_sts_token sample_config (JStr "R1") None
         (sample_state false [RequestException; ok_reply "A" "R" 600]))
  = Ret (JNull, JNull, JNull).
Proof.
  exact (proj1 (request_exception_fails sample_config (JStr "R1") None
                  [ok_reply "A" "R" 600]
                  (sample_state false [RequestException; ok_reply "A" "R" 600])
                  eq_refl)).
Defined.

(** X10: a redirect (301, 302, 307, 308) with a [Location] header makes
    [get_sts_token] repeat the request at that URL with the same form
    (the same refresh token, or the password grant again). *)
Theorem redirect_is_followed_with_same_grant (cfg : config) (rt : json)
    (url : option string) (status : Z) (headers : list (string * string))
    (body : option json) (rest : list http_reply) (s : state)
    (new_host : string)
    (Hscript : http_script s = Response status headers body :: rest)
    (Hstatus : is_redirect status = true)
    (Hlocation : header_get headers "Location" = Ret new_host) :
  let r := get_sts_token cfg rt url s in
  r = get_sts_token cfg rt (Some new_host) (after_request cfg rt url rest s) /\
  exists t,
    trace (snd r)
    = (trace s ++ request_event cfg rt url
         :: Posted new_host (request_data cfg rt)
              (clientid cfg, client_secret cfg) :: t)%list.
Proof.
  cbv zeta.
  rewrite (get_sts_token_redirect cfg rt url status headers body rest s
             Hscript Hstatus), Hlocation.
  split; [reflexivity|].
  destruct (get_sts_token cfg rt (Some new_host)
              (after_request cfg rt url rest s)) as [o s'] eqn:E.
  destruct (get_sts_token_from_first_request cfg _ _ _ _ _ _ E) as (t & Ht).
  exists t. cbn [snd]. rewrite Ht.
  cbn [trace after_request set_http_script emit]. now rewrite <- app_assoc.
Qed.

Lemma redirect_is_followed_with_same_grant_witness :
  let s := sample_state false
             [Response 307 [("location", "https://eu.example/token")] None;
              ok_reply "A" "R" 600] in
  fst (get_sts_token sample_config (JStr "R1") None s)
  = Ret (JStr "A", JStr "R", JNum 600).
Proof.
  cbv zeta.
  rewrite (proj1 (redirect_is_followed_with_same_grant sample_config
                    (JStr "R1") None 307
                    [("location", "https://eu.example/token")] None
                    [ok_reply "A" "R" 600]
                    (sample_state false
                       [Response 307 [("location", "https://eu.example/token")]
                          None;
                        ok_reply "A" "R" 600])
                    "https://eu.example/token" eq_refl eq_refl eq_refl)).
  reflexivity.
Defined.

(** X11: a reply whose status is none of 200, 301, 302, 307, 308, 400, 401,
    403, 451 makes [get_sts_token] send the request again at once, without
    any wait, with the same form, at the default URL (also when the call
    was made at the URL of a redirect): the call continues as a call with
    the same token on the remaining replies. *)
Theorem unhandled_status_is_retried_at_default_url (cfg : config) (rt : json)
    (url : option string) (status : Z) (headers : list (string * string))
    (body : option json) (rest : list http_reply) (s : state)
    (Hscript : http_script s = Response status headers body :: rest)
    (Hstatus : retried_status status = true) :
  let r := get_sts_token cfg rt url s in
  r = get_sts_token cfg rt None (after_request cfg rt url rest s) /\
  exists t,
    trace (snd r)
    = (trace s ++ request_event cfg rt url
         :: Posted (auth_url cfg) (request_data cfg rt)
              (clientid cfg, client_secret cfg) :: t)%list /\
    sleeps t = [].
Proof.
  cbv zeta.
  rewrite (get_sts_token_retried cfg rt url status headers body rest s
             Hscript Hstatus).
  split; [reflexivity|].
  destruct (get_sts_token cfg rt None (after_request cfg rt url rest s))
    as [o s'] eqn:E.
  destruct (get_sts_token_from_first_request cfg _ _ _ _ _ _ E) as (t & Ht).
  destruct (get_sts_token_only_requests cfg _ _ _ _ _ E)
    as (_ & _ & _ & _ & _ & _ & t' & Ht' & Hs & _).
  exists t. cbn [snd]. split.
  - rewrite Ht. cbn [trace after_request set_http_script emit].
    now rewrite <- app_assoc.
  - rewrite Ht in Ht'. apply app_inv_head in Ht'. subst t'.
    cbn [sleeps request_event] in Hs. exact Hs.
Qed.

Lemma unhandled_status_is_retried_at_default_url_witness :
  let s := sample_state false [Response 503 [] None; ok_reply "A" "R" 600] in
  retried_status 503 = true /\
  fst (get_sts_token sample_config (JStr "R1")
         (Some "https://eu.example/token") s)
  = Ret (JStr "A", JStr "R", JNum 600).
Proof.
  cbv zeta. split; [reflexivity|].
  rewrite (proj1 (unhandled_status_is_retried_at_default_url sample_config
                    (JStr "R1") (Some "https://eu.example/token") 503 [] None
                    [ok_reply "A" "R" 600]
                    (sample_state false
                       [Response 503 [] None; ok_reply "A" "R" 600])
                    eq_refl eq_refl)).
  reflexivity.
Defined.

(** X12: every request that a call [get_sts_token(rt)] makes carries the
    client identifier and secret as authentication, and its form is either
    the one of [rt] or the one of the password grant: no other token is
    ever sent. *)
Theorem every_request_sends_token_or_password (cfg : config) (rt : json)
    (url : option string) (s : state) :
  exists t,
    trace (snd (get_sts_token cfg rt url s)) = (trace s ++ t)%list /\
    Forall (sends_token_or_password cfg rt) t.
Proof.
  destruct (get_sts_token cfg rt url s) as [o s'] eqn:E.
  exact (get_sts_token_from_requests cfg _ _ _ _ _ _ E).
Qed.

(** X13: a triple that [get_sts_token] returns is the failure triple, or it
    is made of the [access_token], [refresh_token] and [expires_in] of the
    body of the 200 reply that ended the call. *)
Theorem credential_only_from_ok_reply (cfg : config) (rt : json)
    (url : option string) (s s' : state) (access refresh expires : json)
    (Hrun : get_sts_token cfg rt url s = (Ret (access, refresh, expires), s')) :
  (access, refresh, expires) = (JNull, JNull, JNull) \/
  exists consumed headers members,
    http_script s
    = (consumed ++ Response 200 headers (Some (JObj members))
         :: http_script s')%list /\
    dict_get "access_token" members = Some access /\
    dict_get "refresh_token" members = Some refresh /\
    dict_get "expires_in" members = Some expires.
Proof.
  exact (get_sts_token_from_credential cfg _ _ _ _ _ _ Hrun).
Qed.

Lemma credential_only_from_ok_reply_witness :
  exists consumed headers members,
    [Response 500 [] None; ok_reply "A" "R" 600]
    = (consumed ++ Response 200 headers (Some (JObj members)) :: [])%list /\
    dict_get "access_token" members = Some (JStr "A").
Proof.
  destruct (credential_only_from_ok_reply sample_config JNull None
              (sample_state false [Response 500 [] None; ok_reply "A" "R" 600])
              _ (JStr "A") (JStr "R") (JNum 600) eq_refl)
    as [H|(c & h & m & E & Ha & _)]; [discriminate H|].
  exists c, h, m. split; assumption.
Defined.

(** X14: [get_sts_token] takes one reply per request: when the call
    returns or raises, it has made as many requests as it has consumed
    replies, at least one, and has left the later replies untouched. *)
Theorem one_reply_per_request (cfg : config) (rt : json)
    (url : option string) (s s' : state) (o : outcome (json * json * json))
    (Hrun : get_sts_token cfg rt url s = (o, s'))
    (Hends : o <> Unmodelled) :
  exists consumed t,
    http_script s = (consumed ++ http_script s')%list /\
    trace s' = (trace s ++ t)%list /\
    List.length t = List.length consumed /\
    consumed <> [] /\
    sleeps t = [] /\ frames t = [].
Proof.
  destruct (get_sts_token_from_consumes cfg _ _ _ _ _ _ Hrun)
    as (consumed & t & Ht & Ho).
  destruct (get_sts_token_only_requests cfg _ _ _ _ _ Hrun)
    as (_ & _ & _ & _ & _ & _ & t' & Ht' & Hs & Hf).
  assert (t' = t) by (rewrite Ht in Ht'; exact (app_inv_head _ _ _ (eq_sym Ht'))).
  subst t'. exists consumed, t.
  destruct o as [x|e|]; [| |contradiction];
    destruct Ho as (E & L & N); repeat split; assumption.
Qed.

Lemma one_reply_per_request_witness :
  exists (consumed : list http_reply) (t : list event),
    [Response 401 [] None; Response 403 [] None; ok_reply "A" "R" 600]
    = (consumed ++ [ok_reply "A" "R" 600])%list /\
    List.length t = List.length consumed.
Proof.
  assert (Hne : Ret (JNull, JNull, JNull)
                <> (Unmodelled : outcome (json * json * json)))
    by discriminate.
  destruct (one_reply_per_request sample_config (JStr "R1") None
              (sample_state false
                 [Response 401 [] None; Response 403 [] None;
                  ok_reply "A" "R" 600])
              _ _ eq_refl Hne) as (c & t & E & _ & L & _).
  exists c, t. split; assumption.
Defined.

(** X15: [get_sts_token] changes no variable of the session: the tokens,
    the expiry times and the two flags are after the call what they were
    before, whatever the replies. *)
Theorem get_sts_token_keeps_session (cfg : config) (rt : json)
    (url : option string) (s : state) :
  session_of (snd (get_sts_token cfg rt url s)) = session_of s.
Proof.
  destruct (get_sts_token cfg rt url s) as [o s'] eqn:E.
  destruct (get_sts_token_only_requests cfg _ _ _ _ _ E)
    as (H1 & H2 & H3 & H4 & H5 & H6 & _).
  unfold session_of. cbn [snd]. now rewrite H1, H2, H3, H4, H5, H6.
Qed.

(** ** More on the frames received *)

Section InboundFacts.

Variable cfg : config.

Lemma process_login_accepted members s :
  login_accepted members ->
  process_message cfg (JObj members) s
  = (Ret tt, emit (WsSent (subscription_frame cfg)) (set_logged_in true s)).
Proof.
  intros (Htype & Hdomain & st & Hst & Hstream & Hdata).
  unfold process_message, bind, lift, py_getitem, py_in.
  rewrite Htype, Hdomain. cbn.
  unfold process_login_response, bind, lift, py_getitem.
  rewrite Hst, Hstream. cbn. rewrite Hdata. reflexivity.
Qed.

Lemma process_message_ignored members s :
  ignored_message members ->
  process_message cfg (JObj members) s = (Ret tt, s).
Proof.
  intros (mt & Htype & Hping & Hcase).
  unfold process_message, bind, lift, py_getitem, py_in. rewrite Htype.
  destruct (py_eq_str mt "Refresh") eqn:Hr.
  - destruct Hcase as [H|[H|(d & Hd & Hl)]].
    + discriminate H.
    + rewrite H. reflexivity.
    + rewrite Hd. cbn. rewrite Hl. reflexivity.
  - rewrite Hping. reflexivity.
Qed.





End InboundFacts.

(** X16: a login [Refresh] whose state is [Open] and [Ok] sets the login
    flag and sends one frame, the subscription request: read back, it has
    [ID] 2 and the configured item and service as [Key.Name] and
    [Key.Service]; the tokens, the expiry times and the connection flag do
    not change. *)
Theorem accepted_login_subscribes (cfg : config) (s : state)
    (members : list (string * json))
    (Hlogin : login_accepted members) :
  let s' := snd (process_message cfg (JObj members) s) in
  fst (process_message cfg (JObj members) s) = Ret tt /\
  logged_in s' = true /\
  trace s' = (trace s ++ [WsSent (subscription_frame cfg)])%list /\
  (exists request,
      loads (subscription_frame cfg) = Some request /\
      json_path ["ID"] request = Some (JNum 2) /\
      json_path ["Key"; "Name"] request = Some (JStr (ric cfg)) /\
      json_path ["Key"; "Service"] request = Some (JStr (service cfg))) /\
  sts_token s' = sts_token s /\ refresh_token s' = refresh_token s /\
  expire_time s' = expire_time s /\
  original_expire_time s' = original_expire_time s /\
  web_socket_open s' = web_socket_open s.
Proof.
  cbv zeta. rewrite (process_login_accepted cfg members s Hlogin).
  repeat split.
  eexists. split; [apply loads_dumps; reflexivity|]. repeat split.
Qed.

Lemma accepted_login_subscribes_witness :
  login_accepted accepted_message /\
  logged_in (snd (process_message sample_config (JObj accepted_message)
                    (sample_state false []))) = true.
Proof.
  assert (H : login_accepted accepted_message).
  { repeat split. eexists. repeat split. }
  split; [exact H|].
  exact (proj1 (proj2 (accepted_login_subscribes sample_config
                         (sample_state false []) accepted_message H))).
Defined.

(** X17: [process_message] ignores a message whose [Type] is neither
    [Refresh] nor [Ping], and a [Refresh] that has no [Domain] or a
    [Domain] other than [Login]: nothing is sent and nothing changes. *)
Theorem other_messages_are_ignored (cfg : config) (s : state)
    (members : list (string * json))
    (Hignored : ignored_message members) :
  process_message cfg (JObj members) s = (Ret tt, s).
Proof. exact (process_message_ignored cfg members s Hignored). Qed.

Lemma other_messages_are_ignored_witness :
  process_message sample_config
    (JObj [("Type", JStr "Update"); ("Domain", JStr "Login")])
    (sample_state true [])
  = (Ret tt, sample_state true []).
Proof.
  apply other_messages_are_ignored.
  exists (JStr "Update"). repeat split. left. reflexivity.
Defined.

(** X18: a message that is not a JSON object makes [process_message] raise
    [TypeError], an object without [Type] makes it raise [KeyError], and a
    login [Refresh] without [State] too; in each case nothing is sent and
    nothing changes. *)
Theorem malformed_message_raises (cfg : config) (s : state) :
  (forall v, (forall members, v <> JObj members) ->
             process_message cfg v s = (Raise TypeError, s)) /\
  (forall members,
      dict_get "Type" members = None ->
      process_message cfg (JObj members) s = (Raise (KeyError "Type"), s)) /\
  (forall members,
      dict_get "Type" members = Some (JStr "Refresh") ->
      dict_get "Domain" members = Some (JStr "Login") ->
      dict_get "State" members = None ->
      process_message cfg (JObj members) s = (Raise (KeyError "State"), s)).
Proof.
  split; [|split].
  - intros v Hv. destruct v; try reflexivity. exfalso. exact (Hv _ eq_refl).
  - intros members H. unfold process_message, bind, lift, py_getitem.
    rewrite H. reflexivity.
  - intros members Ht Hd Hs.
    unfold process_message, bind, lift, py_getitem, py_in.
    rewrite Ht, Hd. cbn. unfold process_login_response, bind, lift, py_getitem.
    rewrite Hs. reflexivity.
Qed.







(** X22: [on_open] sets [web_socket_open] and sends one frame, the first
    login: read back, it carries the current [sts_token] at
    [Key.Elements.AuthenticationToken] and has no [Refresh] member; the
    login flag and the tokens do not change. *)
Theorem on_open_sends_first_login (cfg : config) (s : state)
    (Hwf : wf_json (sts_token s) = true) :
  let s' := snd (on_open cfg s) in
  fst (on_open cfg s) = Ret tt /\
  web_socket_open s' = true /\
  logged_in s' = logged_in s /\
  sts_token s' = sts_token s /\
  exists frame members,
    trace s' = (trace s ++ [WsSent frame])%list /\
    loads frame = Some (JObj members) /\
    json_path ["Key"; "Elements"; "AuthenticationToken"] (JObj members)
    = Some (sts_token s) /\
    dict_get "Refresh" members = None.
Proof.
  cbv zeta. repeat split.
  eexists. eexists. split; [reflexivity|].
  cbn [sts_token set_web_socket_open].
  split; [exact (loads_dumps _ (login_json_wf cfg (sts_token s) false Hwf))|].
  split; reflexivity.
Qed.

Lemma on_open_sends_first_login_witness :
  wf_json (sts_token (sample_state false [])) = true /\
  web_socket_open (snd (on_open sample_config (sample_state false []))) = true.
Proof.
  split; [reflexivity|].
  exact (proj1 (proj2 (on_open_sends_first_login sample_config
                         (sample_state false []) eq_refl))).
Defined.

(** ** More on the renewal loop *)

Section RenewalMore.

Variable cfg : config.

Lemma renew_first_acquisition_fails s tok1 rt1 e1 s1 :
  get_sts_token cfg (refresh_token s) None s = (Ret (tok1, rt1, e1), s1) ->
  py_truthy tok1 = false ->
  renew cfg s = (Raise (SystemExit 1), set_credential tok1 rt1 e1 s1).
Proof.
  intros H1 T1. unfold renew. unfold bind at 1. cbn [gets].
  unfold bind at 1. rewrite acquire_or_exit_cases, H1, T1. reflexivity.
Qed.

Lemma renew_second_acquisition_fails s tok1 rt1 e1 s1 a b tok2 rt2 e2 s2 :
  get_sts_token cfg (refresh_token s) None s = (Ret (tok1, rt1, e1), s1) ->
  py_truthy tok1 = true ->
  py_int e1 = Ret a ->
  py_int (original_expire_time s) = Ret b ->
  a <> b ->
  get_sts_token cfg JNull None (set_credential tok1 rt1 e1 s1)
  = (Ret (tok2, rt2, e2), s2) ->
  py_truthy tok2 = false ->
  renew cfg s = (Raise (SystemExit 1), set_credential tok2 rt2 e2 s2).
Proof.
  intros H1 T1 Ha Hb Hab H2 T2.
  destruct (get_sts_token_only_requests cfg _ _ _ _ _ H1)
    as (_ & _ & _ & Horig & _).
  unfold renew. unfold bind at 1. cbn [gets].
  unfold bind at 1. rewrite acquire_or_exit_cases, H1, T1.
  unfold bind at 1. cbn [gets expire_time set_credential].
  unfold bind at 1. cbn [gets original_expire_time set_credential].
  rewrite Horig. unfold bind at 1. unfold lift at 1. rewrite Ha.
  unfold bind at 1. unfold lift at 1. rewrite Hb.
  destruct (a =? b) eqn:E; [apply Z.eqb_eq in E; contradiction|].
  cbn [negb]. unfold bind at 1 2. rewrite acquire_or_exit_cases, H2, T2.
  reflexivity.
Qed.

Lemma keeps_flags_pure {A} (c : M A) :
  (forall s, snd (c s) = s) -> keeps_flags c.
Proof.
  intros H s o s' E. specialize (H s). rewrite E in H. cbn in H. subst s'.
  split; reflexivity.
Qed.

Lemma keeps_flags_bind {A B} (c : M A) (k : A -> M B) :
  keeps_flags c -> (forall a, keeps_flags (k a)) -> keeps_flags (bind c k).
Proof.
  intros Hc Hk s o s' E. unfold bind in E.
  destruct (c s) as [[a|e|] s1] eqn:E1.
  - destruct (Hc _ _ _ E1) as (L1 & W1).
    destruct (Hk a _ _ _ E) as (L2 & W2). split; congruence.
  - injection E as _ <-. exact (Hc _ _ _ E1).
  - injection E as _ <-. exact (Hc _ _ _ E1).
Qed.

Lemma keeps_flags_modify (f : state -> state) :
  (forall s, logged_in (f s) = logged_in s /\
             web_socket_open (f s) = web_socket_open s) ->
  keeps_flags (modify f).
Proof. intros H s o s' E. injection E as _ <-. apply H. Qed.

Lemma keeps_flags_acquire_or_exit rt : keeps_flags (acquire_or_exit cfg rt).
Proof.
  intros s o s' E. rewrite acquire_or_exit_cases in E.
  destruct (get_sts_token cfg rt None s) as [[[[tok new_rt] exp]|e|] s1] eqn:G;
    apply get_sts_token_only_requests in G;
    destruct G as (_ & _ & _ & _ & L & W & _);
    injection E as _ <-; split; assumption.
Qed.

Lemma keeps_flags_time_sleep w : keeps_flags (time_sleep w).
Proof.
  unfold time_sleep. destruct (w <? 0).
  - apply keeps_flags_pure. reflexivity.
  - apply keeps_flags_modify. intros s. split; reflexivity.
Qed.

Lemma keeps_flags_renewal_cycle : keeps_flags (renewal_cycle cfg).
Proof.
  unfold renewal_cycle, send_login_request, ws_send.
  repeat first
    [ apply keeps_flags_acquire_or_exit
    | apply keeps_flags_time_sleep
    | apply keeps_flags_bind; [|intros ?]
    | apply keeps_flags_modify; intros ?; split; reflexivity
    | apply keeps_flags_pure; reflexivity
    | match goal with |- keeps_flags (if ?b then _ else _) => destruct b end ].
Qed.

Lemma keeps_flags_renewal_loop n : keeps_flags (renewal_loop cfg n).
Proof.
  induction n as [|n IH]; cbn [renewal_loop].
  - apply keeps_flags_pure. reflexivity.
  - apply keeps_flags_bind; [apply keeps_flags_renewal_cycle|].
    intros _. exact IH.
Qed.

Lemma renewal_cycle_one_sleep s s' :
  renewal_cycle cfg s = (Ret tt, s') ->
  exists w, renewal_wait (expire_time s) = Ret w /\
            sleeps (trace s') = (sleeps (trace s) ++ [w])%list.
Proof.
  intros H. pose proof (renewal_cycle_wait_cases cfg s) as C.
  destruct (renewal_wait (expire_time s)) as [w|e|];
    [|rewrite C in H; discriminate H|rewrite C in H; discriminate H].
  destruct (w <? 0); [rewrite C in H; discriminate H|].
  rewrite C in H. destruct (no_sleep_renew cfg _ _ _ H) as (t & Ht & Hs).
  exists w. split; [reflexivity|].
  rewrite Ht. cbn [trace emit]. rewrite !sleeps_app, Hs. cbn.
  now rewrite app_nil_r.
Qed.

Lemma renewal_loop_sleeps n :
  forall s s',
    renewal_loop cfg n s = (Ret tt, s') ->
    exists ws, sleeps (trace s') = (sleeps (trace s) ++ ws)%list /\
               List.length ws = n.
Proof.
  induction n as [|n IH]; intros s s' H.
  - cbn in H. injection H as <-. exists []. now rewrite app_nil_r.
  - cbn [renewal_loop] in H. unfold bind in H.
    destruct (renewal_cycle cfg s) as [[[]|e|] s1] eqn:E;
      [|discriminate H|discriminate H].
    destruct (renewal_cycle_one_sleep _ _ E) as (w & _ & Hw).
    destruct (IH _ _ H) as (ws & Hws & Hlen).
    exists (w :: ws). split; [|cbn; now rewrite Hlen].
    rewrite Hws, Hw, <- app_assoc. reflexivity.
Qed.

End RenewalMore.

(** X23: in an iteration in which the credential obtained with the refresh
    token has the expiry of [original_expire_time], the loop stores this
    credential, keeps [original_expire_time], makes no further request, and
    sends the renewal login (the new token, with [Refresh] false) when the
    session is logged in and nothing when it is not. *)
Theorem renewal_pushes_new_token_when_logged_in (cfg : config) (s : state)
    (w : Z) (tok1 rt1 e1 : json) (s1 : state) (a : Z)
    (Hwait : renewal_wait (expire_time s) = Ret w)
    (Hpos : 0 <= w)
    (Hfirst : get_sts_token cfg (refresh_token s) None (emit (Slept w) s)
              = (Ret (tok1, rt1, e1), s1))
    (Htok1 : py_truthy tok1 = true)
    (Hnew : py_int e1 = Ret a)
    (Horig : py_int (original_expire_time s) = Ret a) :
  let r := renewal_cycle cfg s in
  fst r = Ret tt /\
  sts_token (snd r) = tok1 /\ refresh_token (snd r) = rt1 /\
  expire_time (snd r) = e1 /\
  original_expire_time (snd r) = original_expire_time s /\
  http_script (snd r) = http_script s1 /\
  trace (snd r)
  = (trace s1 ++ (if logged_in s
                  then [WsSent (dumps (login_json cfg tok1 true))]
                  else []))%list /\
  json_path ["Key"; "Elements"; "AuthenticationToken"]
    (login_json cfg tok1 true) = Some tok1 /\
  json_path ["Refresh"] (login_json cfg tok1 true) = Some (JBool false).
Proof.
  cbv zeta. rewrite (renewal_cycle_after_wait cfg s w Hwait Hpos).
  rewrite (renew_unchanged_expiry cfg (emit (Slept w) s) tok1 rt1 e1 s1 a
             Hfirst Htok1 Hnew Horig).
  destruct (get_sts_token_only_requests cfg _ _ _ _ _ Hfirst)
    as (_ & _ & _ & Ho & Hl & _).
  cbn [fst snd]. unfold push_login. cbn [logged_in set_credential].
  rewrite Hl. cbn [logged_in emit].
  destruct (logged_in s); cbn; rewrite ?app_nil_r; repeat split; exact Ho.
Qed.

Lemma renewal_pushes_new_token_when_logged_in_witness :
  let r := renewal_cycle sample_config
             (sample_state true [ok_reply "A2" "R2" 600]) in
  fst r = Ret tt /\ sts_token (snd r) = JStr "A2" /\
  frames (trace (snd r))
  = [dumps (login_json sample_config (JStr "A2") true)].
Proof.
  cbv zeta.
  assert (Hwait : renewal_wait
                    (expire_time (sample_state true [ok_reply "A2" "R2" 600]))
                  = Ret 540) by (vm_compute; reflexivity).
  assert (Hpos : 0 <= 540) by lia.
  destruct (renewal_pushes_new_token_when_logged_in sample_config
              (sample_state true [ok_reply "A2" "R2" 600]) 540
              (JStr "A2") (JStr "R2") (JNum 600)
              (after_request sample_config (JStr "R1") None []
                 (emit (Slept 540) (sample_state true [ok_reply "A2" "R2" 600])))
              600 Hwait Hpos eq_refl eq_refl eq_refl eq_refl)
    as (H1 & H2 & _ & _ & _ & _ & H7 & _).
  split; [exact H1|]. split; [exact H2|]. rewrite H7. reflexivity.
Defined.

(** X24: when an acquisition of the renewal loop returns the failure
    triple, the iteration ends in [sys.exit(1)]: the three variables of the
    credential have been overwritten with [None], no login frame is sent,
    and after a changed expiry [original_expire_time] is not updated. *)
Theorem failed_renewal_exits (cfg : config) (s : state) (w : Z)
    (tok1 rt1 e1 : json) (s1 : state)
    (Hwait : renewal_wait (expire_time s) = Ret w)
    (Hpos : 0 <= w)
    (Hfirst : get_sts_token cfg (refresh_token s) None (emit (Slept w) s)
              = (Ret (tok1, rt1, e1), s1)) :
  (py_truthy tok1 = false ->
   renewal_cycle cfg s = (Raise (SystemExit 1), set_credential tok1 rt1 e1 s1)) /\
  (forall a b tok2 rt2 e2 s2,
      py_truthy tok1 = true ->
      py_int e1 = Ret a ->
      py_int (original_expire_time s) = Ret b ->
      a <> b ->
      get_sts_token cfg JNull None (set_credential tok1 rt1 e1 s1)
      = (Ret (tok2, rt2, e2), s2) ->
      py_truthy tok2 = false ->
      renewal_cycle cfg s
      = (Raise (SystemExit 1), set_credential tok2 rt2 e2 s2) /\
      original_expire_time (set_credential tok2 rt2 e2 s2)
      = original_expire_time s /\
      frames (trace s2) = frames (trace s)).
Proof.
  rewrite (renewal_cycle_after_wait cfg s w Hwait Hpos). split.
  - intros T1. exact (renew_first_acquisition_fails cfg _ _ _ _ _ Hfirst T1).
  - intros a b tok2 rt2 e2 s2 T1 Ha Hb Hab H2 T2.
    split; [exact (renew_second_acquisition_fails cfg _ _ _ _ _ a b _ _ _ _
                     Hfirst T1 Ha Hb Hab H2 T2)|].
    destruct (get_sts_token_only_requests cfg _ _ _ _ _ Hfirst)
      as (_ & _ & _ & Ho1 & _ & _ & t1 & Ht1 & _ & Hf1).
    destruct (get_sts_token_only_requests cfg _ _ _ _ _ H2)
      as (_ & _ & _ & Ho2 & _ & _ & t2 & Ht2 & _ & Hf2).
    cbn [original_expire_time set_credential trace emit] in *.
    split; [congruence|].
    rewrite Ht2, Ht1.
    rewrite !frames_app, Hf1, Hf2. cbn. now rewrite !app_nil_r.
Qed.

Lemma failed_renewal_exits_witness :
  renewal_cycle sample_config (sample_state true [Response 403 [] None])
  = (Raise (SystemExit 1),
     set_credential JNull JNull JNull
       (after_request sample_config (JStr "R1") None []
          (emit (Slept 540) (sample_state true [Response 403 [] None])))).
Proof.
  assert (Hwait : renewal_wait
                    (expire_time (sample_state true [Response 403 [] None]))
                  = Ret 540) by (vm_compute; reflexivity).
  assert (Hpos : 0 <= 540) by lia.
  exact (proj1 (failed_renewal_exits sample_config
                  (sample_state true [Response 403 [] None]) 540
                  JNull JNull JNull _ Hwait Hpos eq_refl) eq_refl).
Defined.

(** X25: [n] iterations of the renewal loop that complete have slept
    exactly [n] times, once per iteration. *)
Theorem renewal_loop_sleeps_once_per_iteration (cfg : config) (n : nat)
    (s s' : state)
    (Hrun : renewal_loop cfg n s = (Ret tt, s')) :
  exists ws,
    sleeps (trace s') = (sleeps (trace s) ++ ws)%list /\ List.length ws = n.
Proof. exact (renewal_loop_sleeps cfg n s s' Hrun). Qed.

Lemma renewal_loop_sleeps_once_per_iteration_witness :
  exists ws,
    sleeps (trace (snd (renewal_loop sample_config 2
                          (sample_state false [ok_reply "A2" "R2" 600;
                                               ok_reply "A3" "R3" 600]))))
    = ([] ++ ws)%list /\ List.length ws = 2%nat.
Proof.
  refine (renewal_loop_sleeps_once_per_iteration sample_config 2
            (sample_state false [ok_reply "A2" "R2" 600; ok_reply "A3" "R3" 600])
            _ _).
  vm_compute. reflexivity.
Defined.

(** X26: the renewal loop never changes [logged_in] nor [web_socket_open]:
    after any number of iterations, however they end, the two flags are
    what they were. *)
Theorem renewal_loop_keeps_flags (cfg : config) (n : nat) (s : state) :
  logged_in (snd (renewal_loop cfg n s)) = logged_in s /\
  web_socket_open (snd (renewal_loop cfg n s)) = web_socket_open s.
Proof.
  destruct (renewal_loop cfg n s) as [o s'] eqn:E.
  exact (keeps_flags_renewal_loop cfg n s o s' E).
Qed.

(** X27: the first acquisition of [__main__] is one call with the password
    grant: when it yields a token the credential is stored and its
    [expires_in] becomes [original_expire_time]; when it yields none the
    program exits with code 1; in both cases nothing but the requests of
    that call has happened. *)
Theorem startup_stores_first_credential (cfg : config) (s s1 : state)
    (tok rt exp : json)
    (Hrun : get_sts_token cfg JNull None s = (Ret (tok, rt, exp), s1)) :
  let r := startup cfg s in
  fst r = (if py_truthy tok then Ret tt else Raise (SystemExit 1)) /\
  sts_token (snd r) = tok /\ refresh_token (snd r) = rt /\
  expire_time (snd r) = exp /\
  original_expire_time (snd r)
  = (if py_truthy tok then exp else original_expire_time s) /\
  trace (snd r) = trace s1 /\ http_script (snd r) = http_script s1 /\
  logged_in (snd r) = logged_in s.
Proof.
  cbv zeta. rewrite startup_cases, Hrun.
  destruct (get_sts_token_only_requests cfg _ _ _ _ _ Hrun)
    as (_ & _ & _ & Ho & Hl & _).
  destruct (py_truthy tok); cbn; repeat split; assumption.
Qed.

Lemma startup_stores_first_credential_witness :
  original_expire_time
    (snd (startup sample_config
            (mkState JNull JNull JNull (JStr "0") false false
                     [ok_reply "A1" "R1" 600] [])))
  = JNum 600.
Proof.
  destruct (startup_stores_first_credential sample_config
              (mkState JNull JNull JNull (JStr "0") false false
                       [ok_reply "A1" "R1" 600] [])
              _ (JStr "A1") (JStr "R1") (JNum 600) eq_refl)
    as (_ & _ & _ & _ & H & _).
  exact H.
Defined.

(** X28: an [expires_in] that the server sends as a string of digits is
    treated as the number it spells: [int] gives that number, so the
    comparison with [original_expire_time] is the same, and the wait
    before the renewal is the same. *)
Theorem string_expiry_is_its_number (n : Z) (f : float)
    (Hrange : checked_float_of_Z n = Ret f) :
  py_int (JStr (string_of_Z n)) = py_int (JNum n) /\
  py_int (JStr (string_of_Z n)) = Ret n /\
  renewal_wait (JStr (string_of_Z n)) = renewal_wait (JNum n).
Proof.
  assert (L : int_literal (string_of_Z n) = Some n)
    by exact (int_of_string_of_Z n).
  unfold renewal_wait, py_int, py_float. rewrite L, Hrange.
  repeat split.
  unfold checked_float_of_Z in Hrange.
  destruct (Prim2SF (float_of_Z n)); congruence.
Qed.

Lemma string_expiry_is_its_number_witness :
  renewal_wait (JStr "600") = renewal_wait (JNum 600).
Proof.
  exact (proj2 (proj2 (string_expiry_is_its_number 600 (float_of_Z 600)
                         eq_refl))).
Defined.
